(** * Instor-Label: column resolution and sticker generation

    A shallow embedding of [InstorLabel.py]: the header normaliser and the
    column resolver ([normalize_column_name], [find_column]), the
    line-location parser ([parse_line_location]), the label document
    generator ([generate_sticker_labels]) and, of [main], the computations
    that do not go through a widget: the choice of the reader, the check
    before the button, the preview and the name of the download.

    Conventions of the embedding.
    - A Python [str] is a [string] holding its UTF-8 bytes.  Every operation
      of the program that looks inside a string tests for ASCII characters
      only (the class [[^a-zA-Z0-9]], the separator ["_"]), and no byte of a
      multi-byte UTF-8 sequence is ASCII, so working on bytes gives the same
      result as working on code points.
    - Lengths are IEEE binary64 numbers ([PrimFloat]), as in Python.
    - The Streamlit calls ([st.error], [st.progress]) are recorded in an
      event log which the generator threads through its computation, with
      Python exceptions as a second kind of result.
    - What the program obtains from outside (the clock, the QR encoder) is
      collected in a record [Env] passed to the generator.
    - ReportLab's objects are data: a [Paragraph], a [Table] or an [Image]
      is the record of the arguments it was built from, and the document
      is the template with the story handed to [doc.build].  Laying the
      story out and writing the PDF is ReportLab's work and is not part of
      the embedding.
    - The generator is given twice.  [generate_sticker_labels] follows a
      run in which ReportLab and Streamlit raise nothing, on a table under
      the default index.  [generate_sticker_labels_with] adds the
      exceptions of these libraries (a paragraph text that is not valid
      markup, a story that cannot be laid out, a progress value out of
      range) and the index labels of the records; with libraries that
      accept everything and the default index it is the first one
      ([generate_quiet]). *)

From Stdlib Require Import String Ascii List ZArith NArith Bool Lia Floats.
From stdpp Require Import gmap strings list fin_maps.

Local Open Scope string_scope.
Local Open Scope list_scope.

(** ** Python strings *)

Module PyStr.

(** The complement of the regular expression class [[^a-zA-Z0-9]]. *)
Definition is_ascii_alnum (c : ascii) : bool :=
  let n := N_of_ascii c in
  ((48 <=? n) && (n <=? 57) || (65 <=? n) && (n <=? 90)
   || (97 <=? n) && (n <=? 122))%N.

Definition lower_char (c : ascii) : ascii :=
  let n := N_of_ascii c in
  if ((65 <=? n) && (n <=? 90))%N then ascii_of_N (n + 32) else c.

(** [re.sub(r'[^a-zA-Z0-9]', '', s)] *)
Fixpoint strip_non_alnum (s : string) : string :=
  match s with
  | EmptyString => EmptyString
  | String c r =>
      if is_ascii_alnum c then String c (strip_non_alnum r)
      else strip_non_alnum r
  end.

(** [s.lower()], on a string of ASCII letters and digits. *)
Fixpoint lower (s : string) : string :=
  match s with
  | EmptyString => EmptyString
  | String c r => String (lower_char c) (lower r)
  end.

(** [sub in s] *)
Fixpoint contains (sub s : string) : bool :=
  String.prefix sub s
  || match s with
     | EmptyString => false
     | String _ r => contains sub r
     end.

(** [s.split("_")] *)
Fixpoint split_underscore (s : string) : list string :=
  match s with
  | EmptyString => [EmptyString]
  | String c r =>
      if Ascii.eqb c "_" then EmptyString :: split_underscore r
      else match split_underscore r with
           | h :: t => String c h :: t
           | [] => [String c EmptyString]
           end
  end.

(** The truth value of a string: non-empty. *)
Definition truthy (s : string) : bool :=
  match s with EmptyString => false | String _ _ => true end.

Definition nl : string := String (ascii_of_N 10) EmptyString.

End PyStr.

(** ** The column resolver *)

(** [normalize_column_name] *)
Definition normalize_column_name (col_name : string) : string :=
  PyStr.lower (PyStr.strip_non_alnum col_name).

(** A Python [dict] from strings to strings, in insertion order.  Assigning
    to a key that is present replaces the value and keeps the position. *)
Module PyDict.

Definition t : Type := list (string * string).

Fixpoint set (k v : string) (d : t) : t :=
  match d with
  | [] => [(k, v)]
  | (k', v') :: d' =>
      if String.eqb k k' then (k', v) :: d' else (k', v') :: set k v d'
  end.

Fixpoint get (k : string) (d : t) : option string :=
  match d with
  | [] => None
  | (k', v') :: d' => if String.eqb k k' then Some v' else get k d'
  end.

End PyDict.

(** [{normalize_column_name(col): col for col in df.columns}] *)
Definition normalized_df_columns (columns : list string) : PyDict.t :=
  fold_left (fun d col => PyDict.set (normalize_column_name col) col d)
            columns [].

(** The first loop of [find_column]: the first alias that is a key. *)
Fixpoint find_exact (d : PyDict.t) (names : list string) : option string :=
  match names with
  | [] => None
  | norm_name :: rest =>
      match PyDict.get norm_name d with
      | Some original_name => Some original_name
      | None => find_exact d rest
      end
  end.

Definition partial_hit (norm_name : string) (item : string * string) : bool :=
  PyStr.contains norm_name (fst item) || PyStr.contains (fst item) norm_name.

(** The second loop: aliases outside, dictionary items inside. *)
Fixpoint find_partial (d : PyDict.t) (names : list string) : option string :=
  match names with
  | [] => None
  | norm_name :: rest =>
      match List.find (partial_hit norm_name) d with
      | Some item => Some (snd item)
      | None => find_partial d rest
      end
  end.

Definition line_location_hit (item : string * string) : bool :=
  PyStr.contains "line" (fst item) && PyStr.contains "location" (fst item)
  || PyStr.contains "lineloc" (fst item).

(** The third loop: the line-location keywords. *)
Definition find_keyword (d : PyDict.t) : option string :=
  match List.find line_location_hit d with
  | Some item => Some (snd item)
  | None => None
  end.

(** [find_column], on the column labels of the data frame. *)
Definition find_column (columns possible_names : list string)
  : option string :=
  let d := normalized_df_columns columns in
  let normalized_possible_names := map normalize_column_name possible_names in
  match find_exact d normalized_possible_names with
  | Some col => Some col
  | None =>
      match find_partial d normalized_possible_names with
      | Some col => Some col
      | None => find_keyword d
      end
  end.

(** [column_mappings], in the order of the literal. *)
Definition ASSLY_names : list string :=
  ["assly"; "ASSY NAME"; "Assy Name"; "assy name"; "assyname";
   "assy_name"; "Assy_name"; "Assembly"; "Assembly Name"; "ASSEMBLY";
   "Assembly_Name"].

Definition part_no_names : list string :=
  ["PARTNO"; "PARTNO."; "Part No"; "Part Number"; "PartNo";
   "partnumber"; "part no"; "partnum"; "PART"; "part"; "Product Code";
   "Item Number"; "Item ID"; "Item No"; "item"; "Item"].

Definition description_names : list string :=
  ["DESCRIPTION"; "Description"; "Desc"; "Part Description";
   "ItemDescription"; "item description"; "Product Description";
   "Item Description"; "NAME"; "Item Name"; "Product Name"].

Definition Part_per_veh_names : list string :=
  ["QYT"; "QTY / VEH"; "Qty/Veh"; "Qty Bin"; "Quantity per Bin";
   "qty bin"; "qtybin"; "quantity bin"; "BIN QTY"; "BINQTY";
   "QTY_BIN"; "QTY_PER_BIN"; "Bin Quantity"; "BIN"].

Definition Type_names : list string :=
  ["TYPE"; "type"; "Type"; "tyPe"; "Type name"].

Definition line_location_names : list string :=
  ["LINE LOCATION"; "Line Location"; "line location"; "LINELOCATION";
   "linelocation"; "Line_Location"; "line_location"; "LINE_LOCATION";
   "LineLocation"; "line_loc"; "lineloc"; "LINELOC"; "Line Loc"].

Definition column_mappings : list (string * list string) :=
  [("ASSLY", ASSLY_names);
   ("part_no", part_no_names);
   ("description", description_names);
   ("Part_per_veh", Part_per_veh_names);
   ("Type", Type_names);
   ("line_location", line_location_names)].

(** The loop that fills [found_columns]: a column is recorded when
    [find_column] returned a label that is true as a condition. *)
Definition record_column (columns : list string)
    (found : gmap string string) (entry : string * list string)
  : gmap string string :=
  match find_column columns (snd entry) with
  | Some found_col =>
      if PyStr.truthy found_col then <[fst entry := found_col]> found
      else found
  | None => found
  end.

Definition find_columns (columns : list string) : gmap string string :=
  fold_left (record_column columns) column_mappings ∅.

Definition required_columns : list string :=
  ["ASSLY"; "part_no"; "description"].

(** [[col for col in required_columns if col not in found_columns]] *)
Definition missing_required (found : gmap string string) : list string :=
  List.filter (fun col => match found !! col with
                          | Some _ => false
                          | None => true
                          end) required_columns.

(** ** The line-location parser *)

(** [parse_line_location], on a string ([pd.isna] of a string is false).
    A list repeated a negative number of times is empty. *)
Definition parse_line_location (location_string : string) : list string :=
  if negb (PyStr.truthy location_string) then [""; ""; ""; ""]
  else
    let parts := PyStr.split_underscore location_string in
    let result :=
      firstn 4 parts
      ++ repeat "" (Z.to_nat (4 - Z.of_nat (length parts))) in
    firstn 4 result.


(** ** Lengths and page geometry *)

Set Warnings "-inexact-float".

(** [reportlab.lib.units]: [inch = 72.0] and [cm = inch / 2.54], in points. *)
Definition inch : float := 72.0%float.
Definition cm : float := (inch / 2.54)%float.

Definition STICKER_WIDTH : float := (10 * cm)%float.
Definition STICKER_HEIGHT : float := (15 * cm)%float.
Definition STICKER_PAGESIZE : float * float := (STICKER_WIDTH, STICKER_HEIGHT).

Definition CONTENT_BOX_WIDTH : float := (10 * cm)%float.
Definition CONTENT_BOX_HEIGHT : float := (5 * cm)%float.

Definition content_width : float := (CONTENT_BOX_WIDTH - 0.2 * cm)%float.

(** The five widths chosen by the caller. *)
Record Layout : Type := mkLayout {
  line_loc_header_width : float;
  line_loc_box1_width : float;
  line_loc_box2_width : float;
  line_loc_box3_width : float;
  line_loc_box4_width : float
}.

Definition col_widths_top : list float :=
  [(content_width * 0.3)%float; (content_width * 0.7)%float].

Definition col_widths_middle : list float :=
  [(content_width * 0.3)%float; (content_width * 0.3)%float;
   (content_width * 0.4)%float].

Definition col_widths_bottom (cfg : Layout) : list float :=
  [(content_width * line_loc_header_width cfg)%float;
   (content_width * line_loc_box1_width cfg)%float;
   (content_width * line_loc_box2_width cfg)%float;
   (content_width * line_loc_box3_width cfg)%float;
   (content_width * line_loc_box4_width cfg)%float].

Definition ASSLY_row_height : float := (0.7 * cm)%float.
Definition part_row_height : float := (0.7 * cm)%float.
Definition desc_row_height : float := (0.7 * cm)%float.
Definition bottom_row_height : float := (0.6 * cm)%float.
Definition location_row_height : float := (0.6 * cm)%float.

Definition row_heights : list float :=
  [ASSLY_row_height; part_row_height; desc_row_height; bottom_row_height;
   bottom_row_height; bottom_row_height; location_row_height].

(** ** ReportLab flowables *)

Inductive Alignment : Type := TA_LEFT | TA_CENTER | TA_RIGHT.

Record ParagraphStyle : Type := mkStyle {
  style_name : string;
  fontName : string;
  fontSize : nat;
  alignment : Alignment;
  leading : option nat
}.

Definition partper_style : ParagraphStyle :=
  mkStyle "Quantity" "Helvetica" 10 TA_LEFT (Some 12).
Definition Type_style : ParagraphStyle :=
  mkStyle "Quantity" "Helvetica" 11 TA_LEFT (Some 12).
Definition date_style : ParagraphStyle :=
  mkStyle "DATE" "Helvetica" 10 TA_LEFT (Some 12).
Definition location_style : ParagraphStyle :=
  mkStyle "Location" "Helvetica" 9 TA_CENTER (Some 10).
Definition QRPlaceholder : ParagraphStyle :=
  mkStyle "QRPlaceholder" "Helvetica-Bold" 12 TA_CENTER None.

(** What a table cell holds: a plain string, a [Paragraph] or an [Image]
    built from a PNG buffer. *)
Inductive CellValue : Type :=
  | Str (s : string)
  | Paragraph (text : string) (style : ParagraphStyle)
  | Image (png : string) (width height : float).

(** The commands of a [TableStyle]; cell coordinates are (column, row). *)
Inductive StyleCmd : Type :=
  | FONTNAME (start stop : Z * Z) (font : string)
  | FONTSIZE (start stop : Z * Z) (size : nat)
  | ALIGN (start stop : Z * Z) (how : string)
  | VALIGN (start stop : Z * Z) (how : string)
  | GRID (start stop : Z * Z) (weight : nat) (color : string)
  | LEFTPADDING (start stop : Z * Z) (pad : nat)
  | RIGHTPADDING (start stop : Z * Z) (pad : nat)
  | TOPPADDING (start stop : Z * Z) (pad : nat)
  | BOTTOMPADDING (start stop : Z * Z) (pad : nat)
  | SPAN (start stop : Z * Z).

Inductive Flowable : Type :=
  | Table (data : list (list CellValue)) (colWidths rowHeights : list float)
          (style : list StyleCmd)
  | PageBreak.

Local Open Scope Z_scope.

Definition top_style : list StyleCmd :=
  [FONTNAME (0, 0) (-1, -1) "Helvetica";
   FONTNAME (0, 0) (0, -1) "Helvetica-Bold";
   FONTNAME (1, 1) (1, 1) "Helvetica-Bold";
   FONTSIZE (0, 0) (0, -1) 11;
   FONTSIZE (1, 0) (-1, 0) 10;
   FONTSIZE (1, 1) (-1, 1) 11;
   FONTSIZE (1, 2) (1, 2) 8;
   ALIGN (0, 0) (0, -1) "CENTER";
   ALIGN (1, 0) (1, -1) "LEFT";
   VALIGN (0, 0) (-1, -1) "MIDDLE";
   GRID (0, 0) (-1, -1) 1 "black";
   LEFTPADDING (0, 0) (-1, -1) 3;
   RIGHTPADDING (0, 0) (-1, -1) 3;
   TOPPADDING (0, 0) (-1, -1) 2;
   BOTTOMPADDING (0, 0) (-1, -1) 2].

Definition middle_style : list StyleCmd :=
  [FONTNAME (0, 0) (-1, -1) "Helvetica";
   FONTNAME (0, 0) (0, -1) "Helvetica-Bold";
   FONTSIZE (0, 0) (0, 0) 9;
   FONTSIZE (0, 1) (0, 2) 11;
   FONTSIZE (1, 0) (-1, -1) 11;
   ALIGN (0, 0) (0, -1) "CENTER";
   ALIGN (1, 0) (1, -1) "LEFT";
   ALIGN (2, 0) (2, -1) "CENTER";
   VALIGN (0, 0) (-1, -1) "MIDDLE";
   GRID (0, 0) (-1, -1) 1 "black";
   LEFTPADDING (0, 0) (-1, -1) 3;
   RIGHTPADDING (0, 0) (-1, -1) 3;
   TOPPADDING (0, 0) (-1, -1) 2;
   BOTTOMPADDING (0, 0) (-1, -1) 2;
   SPAN (2, 0) (2, 2)].

Definition bottom_style : list StyleCmd :=
  [FONTNAME (0, 0) (-1, -1) "Helvetica";
   FONTNAME (0, 0) (0, 0) "Helvetica-Bold";
   FONTSIZE (0, 0) (-1, -1) 9;
   ALIGN (0, 0) (0, 0) "CENTER";
   ALIGN (1, 0) (-1, -1) "LEFT";
   VALIGN (0, 0) (-1, -1) "MIDDLE";
   GRID (0, 0) (-1, -1) 1 "black";
   LEFTPADDING (0, 0) (-1, -1) 2;
   RIGHTPADDING (0, 0) (-1, -1) 2;
   TOPPADDING (0, 0) (-1, -1) 2;
   BOTTOMPADDING (0, 0) (-1, -1) 2].

Local Close Scope Z_scope.


(** ** The data frame *)

(** A cell of the table: a missing value ([NaN], [NaT], [None]) or a value,
    given by what [str] returns for it. *)
Inductive Cell : Type :=
  | NaN
  | NaT
  | PyNone
  | Val (repr : string).

(** [str(cell)] *)
Definition py_str (c : Cell) : string :=
  match c with
  | NaN => "nan"
  | NaT => "NaT"
  | PyNone => "None"
  | Val repr => repr
  end.

(** [pd.notna(cell)] *)
Definition notna (c : Cell) : bool :=
  match c with
  | Val _ => true
  | _ => false
  end.

(** A data frame as [read_csv] and [read_excel] return it: column labels, and
    the rows in file order under the default index 0, 1, ..., so that the
    index label [iterrows] yields is the position of the row. *)
Record DataFrame : Type := mkDataFrame {
  columns : list string;
  rows : list (list Cell)
}.

(** The labels are distinct (the readers rename duplicates) and every row has
    one cell per column. *)
Definition well_formed (df : DataFrame) : Prop :=
  NoDup (columns df)
  /\ Forall (fun row => length row = length (columns df)) (rows df).

#[global] Instance well_formed_dec (df : DataFrame) : Decision (well_formed df).
Proof. unfold well_formed. apply _. Defined.

(** ** Effects: the Streamlit log and exceptions *)

Inductive Exn : Type :=
  | KeyError (key : string)
  | ValueError (text : string)
  | LayoutError
  | StreamlitAPIException.

Inductive UIEvent : Type :=
  | ProgressBar (value : Z)
  | Progress (numerator denominator : Z)
  | ErrorMissingRequired (missing : list string)
  | ErrorQRCode
  | ErrorPDF (e : Exn).

(** A computation reads the log so far, and returns a value or raises, with
    the log extended by what it displayed. *)
Definition M (A : Type) : Type := list UIEvent -> (A + Exn) * list UIEvent.

Definition ret {A : Type} (x : A) : M A := fun log => (inl x, log).

Definition bind {A B : Type} (m : M A) (k : A -> M B) : M B :=
  fun log =>
    match m log with
    | (inl x, log') => k x log'
    | (inr e, log') => (inr e, log')
    end.

Definition raise {A : Type} (e : Exn) : M A := fun log => (inr e, log).

Definition display (ev : UIEvent) : M unit := fun log => (inl tt, log ++ [ev]).

Notation "'do' x <- m ; k" := (bind m (fun x => k))
  (at level 10, x name, m at level 100, k at level 200).
Notation "'run' m ; k" := (bind m (fun _ => k))
  (at level 10, m at level 100, k at level 200).

(** What the generator obtains from outside: the date the clock gives,
    formatted ["%d-%m-%Y"], and the QR library, which returns the PNG of a
    payload or raises. *)
Record Env : Type := mkEnv {
  today_date : string;
  qr_png : string -> option string
}.

(** ** The generator *)

(** [row[col]], a [KeyError] when the label is not a column. *)
Fixpoint row_lookup (cols : list string) (row : list Cell) (col : string)
  : option Cell :=
  match cols, row with
  | c :: cols', v :: row' =>
      if String.eqb col c then Some v else row_lookup cols' row' col
  | _, _ => None
  end.

Definition row_get (cols : list string) (row : list Cell) (col : string)
  : M Cell :=
  match row_lookup cols row col with
  | Some v => ret v
  | None => raise (KeyError col)
  end.

(** [str(row[found_columns.get(key, '')]) if key in found_columns else "N/A"] *)
Definition extract_required (found : gmap string string)
    (cols : list string) (row : list Cell) (key : string) : M string :=
  match found !! key with
  | Some col => do v <- row_get cols row col ; ret (py_str v)
  | None => ret "N/A"
  end.

(** [str(row[found_columns.get(key, '')])
     if key in found_columns and pd.notna(row[found_columns[key]]) else ""] *)
Definition extract_optional (found : gmap string string)
    (cols : list string) (row : list Cell) (key : string) : M string :=
  match found !! key with
  | Some col =>
      do v <- row_get cols row col ;
      if notna v then do v' <- row_get cols row col ; ret (py_str v')
      else ret ""
  | None => ret ""
  end.

(** The six display strings of a record. *)
Record Fields : Type := mkFields {
  ASSLY : string;
  part_no : string;
  desc : string;
  Part_per_veh : string;
  Type_ : string;
  line_location_raw : string
}.

Definition extract_fields (found : gmap string string)
    (cols : list string) (row : list Cell) : M Fields :=
  do a <- extract_required found cols row "ASSLY" ;
  do p <- extract_required found cols row "part_no" ;
  do d <- extract_required found cols row "description" ;
  do q <- extract_optional found cols row "Part_per_veh" ;
  do t <- extract_optional found cols row "Type" ;
  do l <- extract_optional found cols row "line_location" ;
  ret (mkFields a p d q t l).

(** The payload of the QR code, built as the program builds it. *)
Definition qr_data (today : string) (f : Fields) : string :=
  let s := "ASSLY: " +:+ ASSLY f +:+ PyStr.nl
           +:+ "Part No: " +:+ part_no f +:+ PyStr.nl
           +:+ "Description: " +:+ desc f +:+ PyStr.nl in
  let s := if PyStr.truthy (Part_per_veh f)
           then s +:+ ("QTY/BIN: " +:+ Part_per_veh f +:+ PyStr.nl) else s in
  let s := if PyStr.truthy (Type_ f)
           then s +:+ ("Type: " +:+ Type_ f +:+ PyStr.nl) else s in
  let s := if PyStr.truthy (line_location_raw f)
           then s +:+ ("Line Location: " +:+ line_location_raw f +:+ PyStr.nl)
           else s in
  s +:+ ("Date: " +:+ today).

(** [generate_qr_code]: the image, or [None] after reporting the error. *)
Definition generate_qr_code (env : Env) (data_string : string)
  : M (option CellValue) :=
  match qr_png env data_string with
  | Some png => ret (Some (Image png (1.8 * cm)%float (1.8 * cm)%float))
  | None => run display ErrorQRCode ; ret None
  end.

(** [qr_image if qr_image else Paragraph("QR", ...)] *)
Definition qr_cell_of (qr_image : option CellValue) : CellValue :=
  match qr_image with
  | Some image => image
  | None => Paragraph "QR" QRPlaceholder
  end.

(** [Paragraph(box, location_style) if box else ""] *)
Definition location_box (box : string) : CellValue :=
  if PyStr.truthy box then Paragraph box location_style else Str "".

(** The three tables of one sticker, from the display strings and the cell
    that holds the code.  [parse_line_location] returns four items, so the
    four index accesses are in range. *)
Definition sticker_tables (today : string) (cfg : Layout) (f : Fields)
    (qr_cell : CellValue) : list Flowable :=
  let location_boxes := parse_line_location (line_location_raw f) in
  let location_box_1 := location_box (nth 0 location_boxes "") in
  let location_box_2 := location_box (nth 1 location_boxes "") in
  let location_box_3 := location_box (nth 2 location_boxes "") in
  let location_box_4 := location_box (nth 3 location_boxes "") in
  let unified_table_data :=
    [[Str "ASSLY"; Str (ASSLY f)];
     [Str "PART NO"; Str (part_no f)];
     [Str "PART DESC"; Str (desc f)];
     [Str "PART PER VEH"; Paragraph (Part_per_veh f) partper_style; qr_cell];
     [Str "TYPE"; Paragraph (Type_ f) Type_style; Str ""];
     [Str "DATE"; Paragraph today date_style; Str ""];
     [Str "LINE LOCATION"; location_box_1; location_box_2; location_box_3;
      location_box_4]] in
  let top_table :=
    Table (firstn 3 unified_table_data) col_widths_top
          (firstn 3 row_heights) top_style in
  let middle_table :=
    Table (firstn 3 (skipn 3 unified_table_data)) col_widths_middle
          (firstn 3 (skipn 3 row_heights)) middle_style in
  let bottom_table :=
    Table [nth 6 unified_table_data []] (col_widths_bottom cfg)
          [nth 6 row_heights 0%float] bottom_style in
  [top_table; middle_table; bottom_table].

(** The body of the loop up to [all_elements.extend(elements)]. *)
Definition build_sticker (env : Env) (cfg : Layout)
    (found : gmap string string) (cols : list string) (row : list Cell)
  : M (list Flowable) :=
  do f <- extract_fields found cols row ;
  do qr_image <- generate_qr_code env (qr_data (today_date env) f) ;
  ret (sticker_tables (today_date env) cfg f (qr_cell_of qr_image)).

(** The loop over [df.iterrows()]: [index] is the label of the first row of
    [todo], [all_elements] what the earlier rows appended. *)
Fixpoint process_rows (env : Env) (cfg : Layout)
    (found : gmap string string) (cols : list string) (total_rows : Z)
    (index : Z) (todo : list (list Cell)) (all_elements : list Flowable)
  : M (list Flowable) :=
  match todo with
  | [] => ret all_elements
  | row :: rest =>
      run display (Progress (index + 1) total_rows) ;
      do elements <- build_sticker env cfg found cols row ;
      let all_elements := all_elements ++ elements in
      let all_elements :=
        if (index <? total_rows - 1)%Z then all_elements ++ [PageBreak]
        else all_elements in
      process_rows env cfg found cols total_rows (index + 1)%Z rest
                   all_elements
  end.

(** The document template and the story handed to [doc.build]; the bytes of
    the PDF are a function of the two. *)
Record Document : Type := mkDocument {
  pagesize : float * float;
  topMargin : float;
  bottomMargin : float;
  leftMargin : float;
  rightMargin : float;
  border_rect : float * float * float * float;
  story : list Flowable
}.

(** [SimpleDocTemplate(...)] with the rectangle [draw_border] draws on every
    page. *)
Definition build_document (all_elements : list Flowable) : Document :=
  let x_offset := ((STICKER_WIDTH - CONTENT_BOX_WIDTH) / 3)%float in
  let y_offset := (STICKER_HEIGHT - CONTENT_BOX_HEIGHT - 0.2 * cm)%float in
  let left := (0.1 * cm)%float in
  {| pagesize := STICKER_PAGESIZE;
     topMargin := (0.2 * cm)%float;
     bottomMargin := (STICKER_HEIGHT - CONTENT_BOX_HEIGHT - 0.2 * cm)%float;
     leftMargin := left;
     rightMargin := (0.1 * cm)%float;
     border_rect := ((x_offset + left)%float, y_offset,
                     (CONTENT_BOX_WIDTH - 0.2 * cm)%float, CONTENT_BOX_HEIGHT);
     story := all_elements |}.

(** The body of the [try] block. *)
Definition generate_body (env : Env) (df : DataFrame) (cfg : Layout)
  : M (option (Document * gmap string string)) :=
  let found_columns := find_columns (columns df) in
  let missing := missing_required found_columns in
  match missing with
  | _ :: _ => run display (ErrorMissingRequired missing) ; ret None
  | [] =>
      let total_rows := Z.of_nat (length (rows df)) in
      run display (ProgressBar 0) ;
      do all_elements <-
        process_rows env cfg found_columns (columns df) total_rows 0%Z
                     (rows df) [] ;
      ret (Some (build_document all_elements, found_columns))
  end.

(** What a call leaves behind: the returned pair ([None] for [None, None])
    and what was displayed. *)
Record Outcome : Type := mkOutcome {
  returned : option (Document * gmap string string);
  displayed : list UIEvent
}.

(** [generate_sticker_labels]: the body, with any exception reported and
    turned into [None, None]. *)
Definition generate_sticker_labels (env : Env) (df : DataFrame) (cfg : Layout)
  : Outcome :=
  match generate_body env df cfg [] with
  | (inl r, log) => mkOutcome r log
  | (inr e, log) => mkOutcome None (log ++ [ErrorPDF e])
  end.

(** ** The generator with the failures of its libraries *)

(** The definitions above follow a run in which ReportLab and Streamlit
    raise nothing.  The ones below add what these libraries do to a run:
    - [Paragraph(text, style)] parses [text] as markup when the paragraph
      is built and raises on text it cannot parse;
    - [doc.build(story)] lays the story out and raises when it cannot;
    - [progress_bar.progress(value)] raises when the value is not between
      zero and one;
    - [df.iterrows()] yields the index label of each record with it, and
      the generator computes with that label.
    What ReportLab accepts is a parameter of the run. *)
Record Libraries : Type := mkLibraries {
  paragraph_accepts : string -> bool;
  builds : Document -> bool
}.

(** [Paragraph(text, style)] *)
Definition make_paragraph (lib : Libraries) (text : string)
    (style : ParagraphStyle) : M CellValue :=
  if paragraph_accepts lib text then ret (Paragraph text style)
  else raise (ValueError text).

(** [Paragraph(box, location_style) if box else ""] *)
Definition make_location_box (lib : Libraries) (box : string) : M CellValue :=
  if PyStr.truthy box then make_paragraph lib box location_style
  else ret (Str "").

(** [progress_bar.progress((index + 1) / total_rows)]: the quotient is
    between zero and one when the numerator is between zero and the
    denominator (the division of two integers below 2^53 is exact enough
    to tell). *)
Definition set_progress (numerator denominator : Z) : M unit :=
  if ((0 <=? numerator) && (numerator <=? denominator))%Z
  then display (Progress numerator denominator)
  else raise StreamlitAPIException.

(** The body of the loop up to [all_elements.extend(elements)], every
    paragraph built where the program builds it. *)
Definition build_sticker_with (lib : Libraries) (env : Env) (cfg : Layout)
    (found : gmap string string) (cols : list string) (row : list Cell)
  : M (list Flowable) :=
  do f <- extract_fields found cols row ;
  let location_boxes := parse_line_location (line_location_raw f) in
  do qr_image <- generate_qr_code env (qr_data (today_date env) f) ;
  do qr_cell <- match qr_image with
                | Some image => ret image
                | None => make_paragraph lib "QR" QRPlaceholder
                end ;
  do location_box_1 <- make_location_box lib (nth 0 location_boxes "") ;
  do location_box_2 <- make_location_box lib (nth 1 location_boxes "") ;
  do location_box_3 <- make_location_box lib (nth 2 location_boxes "") ;
  do location_box_4 <- make_location_box lib (nth 3 location_boxes "") ;
  do quantity <- make_paragraph lib (Part_per_veh f) partper_style ;
  do type <- make_paragraph lib (Type_ f) Type_style ;
  do date <- make_paragraph lib (today_date env) date_style ;
  let unified_table_data :=
    [[Str "ASSLY"; Str (ASSLY f)];
     [Str "PART NO"; Str (part_no f)];
     [Str "PART DESC"; Str (desc f)];
     [Str "PART PER VEH"; quantity; qr_cell];
     [Str "TYPE"; type; Str ""];
     [Str "DATE"; date; Str ""];
     [Str "LINE LOCATION"; location_box_1; location_box_2; location_box_3;
      location_box_4]] in
  let top_table :=
    Table (firstn 3 unified_table_data) col_widths_top
          (firstn 3 row_heights) top_style in
  let middle_table :=
    Table (firstn 3 (skipn 3 unified_table_data)) col_widths_middle
          (firstn 3 (skipn 3 row_heights)) middle_style in
  let bottom_table :=
    Table [nth 6 unified_table_data []] (col_widths_bottom cfg)
          [nth 6 row_heights 0%float] bottom_style in
  ret [top_table; middle_table; bottom_table].

(** The loop over [df.iterrows()]: each record comes with its index
    label. *)
Fixpoint process_rows_with (lib : Libraries) (env : Env) (cfg : Layout)
    (found : gmap string string) (cols : list string) (total_rows : Z)
    (todo : list (Z * list Cell)) (all_elements : list Flowable)
  : M (list Flowable) :=
  match todo with
  | [] => ret all_elements
  | (index, row) :: rest =>
      run set_progress (index + 1) total_rows ;
      do elements <- build_sticker_with lib env cfg found cols row ;
      let all_elements := all_elements ++ elements in
      let all_elements :=
        if (index <? total_rows - 1)%Z then all_elements ++ [PageBreak]
        else all_elements in
      process_rows_with lib env cfg found cols total_rows rest all_elements
  end.

(** The body of the [try] block; [index] holds the index labels of the
    records. *)
Definition generate_body_with (lib : Libraries) (env : Env) (index : list Z)
    (df : DataFrame) (cfg : Layout)
  : M (option (Document * gmap string string)) :=
  let found_columns := find_columns (columns df) in
  let missing := missing_required found_columns in
  match missing with
  | _ :: _ => run display (ErrorMissingRequired missing) ; ret None
  | [] =>
      let total_rows := Z.of_nat (length (rows df)) in
      run display (ProgressBar 0) ;
      do all_elements <-
        process_rows_with lib env cfg found_columns (columns df) total_rows
                          (combine index (rows df)) [] ;
      let doc := build_document all_elements in
      if builds lib doc then ret (Some (doc, found_columns))
      else raise LayoutError
  end.

(** [generate_sticker_labels] with the libraries: any exception is
    reported and turned into [None, None]. *)
Definition generate_sticker_labels_with (lib : Libraries) (env : Env)
    (index : list Z) (df : DataFrame) (cfg : Layout) : Outcome :=
  match generate_body_with lib env index df cfg [] with
  | (inl r, log) => mkOutcome r log
  | (inr e, log) => mkOutcome None (log ++ [ErrorPDF e])
  end.

(** The index [read_csv] and [read_excel] give a table: 0, 1, 2, ... *)
Definition default_index (df : DataFrame) : list Z :=
  map Z.of_nat (seq 0 (length (rows df))).

(** ** Vocabulary of the statements *)

(** The pages of a document, joined by page breaks. *)
Fixpoint join_pages (pages : list (list Flowable)) : list Flowable :=
  match pages with
  | [] => []
  | page :: rest =>
      match rest with
      | [] => page
      | _ :: _ => page ++ PageBreak :: join_pages rest
      end
  end.

Definition is_page_break (fl : Flowable) : bool :=
  match fl with
  | PageBreak => true
  | Table _ _ _ _ => false
  end.

Definition count_page_breaks (elements : list Flowable) : nat :=
  length (List.filter is_page_break elements).

(** The display strings [extract_fields] returns for a record. *)
Definition fields_of_row (found : gmap string string) (cols : list string)
    (row : list Cell) (f : Fields) : Prop :=
  forall log, extract_fields found cols row log = (inl f, log).

(** The sticker of a record: the tables of its display strings, with the
    image of the payload, or the placeholder, in the code cell. *)
Definition sticker_page (env : Env) (cfg : Layout)
    (found : gmap string string) (cols : list string) (row : list Cell)
    (page : list Flowable) : Prop :=
  exists f,
    fields_of_row found cols row f
    /\ page = sticker_tables (today_date env) cfg f
                (match qr_png env (qr_data (today_date env) f) with
                 | Some png => Image png (1.8 * cm)%float (1.8 * cm)%float
                 | None => Paragraph "QR" QRPlaceholder
                 end).

(** What a call of [generate_qr_code] displays. *)
Definition qr_events (env : Env) (data : string) : list UIEvent :=
  match qr_png env data with
  | Some _ => []
  | None => [ErrorQRCode]
  end.

(** The events of a run that goes through: progress and QR errors, no
    report of a missing column or of an exception. *)
Definition harmless (ev : UIEvent) : Prop :=
  match ev with
  | ProgressBar _ | Progress _ _ | ErrorQRCode => True
  | ErrorMissingRequired _ | ErrorPDF _ => False
  end.

(** A page made of three tables. *)
Definition three_tables (page : list Flowable) : Prop :=
  match page with
  | [Table _ _ _ _; Table _ _ _ _; Table _ _ _ _] => True
  | _ => False
  end.

(** The page with another content in the code cell: third cell of the
    first row of the second table. *)
Definition with_code_cell (c : CellValue) (page : list Flowable)
  : list Flowable :=
  match page with
  | [top; Table ([label; value; _] :: others) widths heights style; bottom] =>
      [top; Table ([label; value; c] :: others) widths heights style; bottom]
  | _ => page
  end.

(** The display string of a required field. *)
Definition required_field (key : string) (f : Fields) : option string :=
  if String.eqb key "ASSLY" then Some (ASSLY f)
  else if String.eqb key "part_no" then Some (part_no f)
  else if String.eqb key "description" then Some (desc f)
  else None.

(** The cell that holds the code on the sticker of a record. *)
Definition code_cell_of (env : Env) (f : Fields) : CellValue :=
  match qr_png env (qr_data (today_date env) f) with
  | Some png => Image png (1.8 * cm)%float (1.8 * cm)%float
  | None => Paragraph "QR" QRPlaceholder
  end.

(** The sticker of a record with given display strings. *)
Definition page_of_fields (env : Env) (cfg : Layout) (f : Fields)
  : list Flowable :=
  sticker_tables (today_date env) cfg f (code_cell_of env f).

(** The texts of a record that do not depend on the QR library and go
    into paragraphs, in the order the paragraphs are built: the non-empty
    location boxes, the quantity, the type and the date. *)
Definition cell_texts (today : string) (f : Fields) : list string :=
  List.filter PyStr.truthy (parse_line_location (line_location_raw f))
  ++ [Part_per_veh f; Type_ f; today].

(** All the texts of a record that go into paragraphs: the placeholder
    first, when the payload cannot be encoded. *)
Definition paragraph_texts (env : Env) (f : Fields) : list string :=
  match qr_png env (qr_data (today_date env) f) with
  | Some _ => []
  | None => ["QR"]
  end ++ cell_texts (today_date env) f.

(** The first text of a record that ReportLab does not accept. *)
Definition first_rejected_text (lib : Libraries) (env : Env) (f : Fields)
  : option string :=
  List.find (fun text => negb (paragraph_accepts lib text))
            (paragraph_texts env f).

Definition record_accepted (lib : Libraries) (env : Env) (f : Fields) : bool :=
  forallb (paragraph_accepts lib) (paragraph_texts env f).

(** The first text of the table that ReportLab does not accept. *)
Fixpoint first_rejected (lib : Libraries) (env : Env) (fs : list Fields)
  : option string :=
  match fs with
  | [] => None
  | f :: rest =>
      match first_rejected_text lib env f with
      | Some text => Some text
      | None => first_rejected lib env rest
      end
  end.

(** The number of records the loop reaches: all of them, or those up to
    the first one with a text that is not accepted. *)
Fixpoint records_started (lib : Libraries) (env : Env) (fs : list Fields)
  : nat :=
  match fs with
  | [] => 0
  | f :: rest =>
      S (match first_rejected_text lib env f with
         | Some _ => 0
         | None => records_started lib env rest
         end)
  end.

(** The document a run hands to [doc.build] when every text is
    accepted. *)
Definition document_of (env : Env) (cfg : Layout) (fs : list Fields)
  : Document :=
  build_document (join_pages (map (page_of_fields env cfg) fs)).


(** The payload of a record cannot be encoded. *)
Definition qr_fails (env : Env) (f : Fields) : bool :=
  match qr_png env (qr_data (today_date env) f) with
  | Some _ => false
  | None => true
  end.

(** The payload as the specification words it: labelled lines joined by
    newlines, a line of an optional field only when its value is not empty. *)
Definition labeled (label value : string) : string :=
  label +:+ ": " +:+ value.

Definition optional_line (label value : string) : list string :=
  if PyStr.truthy value then [labeled label value] else [].

Definition payload_lines (today : string) (f : Fields) : list string :=
  [labeled "ASSLY" (ASSLY f); labeled "Part No" (part_no f);
   labeled "Description" (desc f)]
  ++ optional_line "QTY/BIN" (Part_per_veh f)
  ++ optional_line "Type" (Type_ f)
  ++ optional_line "Line Location" (line_location_raw f)
  ++ [labeled "Date" today].

(** What the resolver records for one schema entry. *)
Definition resolve (cols names : list string) : option string :=
  match find_column cols names with
  | Some found_col => if PyStr.truthy found_col then Some found_col else None
  | None => None
  end.

(** The last header with a given normalized form. *)
Definition last_with_norm (k : string) (cols : list string) : option string :=
  fold_left (fun acc col =>
               if String.eqb (normalize_column_name col) k then Some col
               else acc) cols None.

(** What a run shows of its document: the number of rows and columns, the
    sizes and the style of each region, and the text of each cell. *)
Definition flowable_shape (fl : Flowable)
  : option (list nat * list float * list float * list StyleCmd) :=
  match fl with
  | Table data colWidths rowHeights style =>
      Some (map (@length CellValue) data, colWidths, rowHeights, style)
  | PageBreak => None
  end.

Definition cell_text (c : CellValue) : option string :=
  match c with
  | Str s => Some s
  | Paragraph text _ => Some text
  | Image _ _ _ => None
  end.

Definition flowable_texts (fl : Flowable) : list (list (option string)) :=
  match fl with
  | Table data _ _ _ => map (map cell_text) data
  | PageBreak => []
  end.

Definition document_shape (o : Outcome)
  : option (list (option (list nat * list float * list float
                          * list StyleCmd))) :=
  match returned o with
  | Some (doc, _) => Some (map flowable_shape (story doc))
  | None => None
  end.

Definition document_texts (o : Outcome)
  : option (list (list (list (option string)))) :=
  match returned o with
  | Some (doc, _) => Some (map flowable_texts (story doc))
  | None => None
  end.

(** ** Sample inputs *)

Definition default_layout : Layout :=
  mkLayout 0.30 0.20 0.25 0.15 0.10.

(** An environment in which the QR library fails on payloads that mention
    the part number ["P-2"]. *)
Definition sample_env : Env :=
  mkEnv "03-11-2026"
        (fun data => if PyStr.contains "P-2" data then None
                     else Some ("PNG:" +:+ data)).

Definition next_day_env : Env :=
  mkEnv "04-11-2026" (qr_png sample_env).

(** The same day, with a QR library that draws other images and fails on
    the same payloads. *)
Definition other_library_env : Env :=
  mkEnv "03-11-2026"
        (fun data => if PyStr.contains "P-2" data then None
                     else Some ("png:" +:+ data)).

Definition sample_table : DataFrame :=
  mkDataFrame
    ["Assy Name"; "Part No"; "Description"; "Qty / Veh"; "Line Location"]
    [[Val "Door"; Val "P-1"; Val "Hinge"; Val "4"; Val "L1_A_03_B"];
     [Val "Door"; Val "P-2"; NaN; NaN; NaN]].

Definition table_without_assembly : DataFrame :=
  mkDataFrame ["Part No"; "Foo"] [[Val "P-1"; Val "x"]].

(** ** Strings, continued *)

(** [s.split(sep)] for a separator of one character. *)
Fixpoint py_split (sep : ascii) (s : string) : list string :=
  match s with
  | EmptyString => [EmptyString]
  | String c r =>
      if Ascii.eqb c sep then EmptyString :: py_split sep r
      else match py_split sep r with
           | h :: t => String c h :: t
           | [] => [String c EmptyString]
           end
  end.

(** [s.endswith(suffix)]: some tail of [s] is [suffix]. *)
Fixpoint py_endswith (suffix s : string) : bool :=
  String.eqb suffix s
  || match s with
     | EmptyString => false
     | String _ r => py_endswith suffix r
     end.

(** The character occurs in the string. *)
Fixpoint has_char (c : ascii) (s : string) : bool :=
  match s with
  | EmptyString => false
  | String c' r => Ascii.eqb c' c || has_char c r
  end.

(** Every character of the string passes the test. *)
Fixpoint all_chars (p : ascii -> bool) (s : string) : bool :=
  match s with
  | EmptyString => true
  | String c r => p c && all_chars p r
  end.

(** A digit or a lower-case ASCII letter. *)
Definition is_lower_alnum (c : ascii) : bool :=
  let n := N_of_ascii c in
  ((48 <=? n) && (n <=? 57) || (97 <=? n) && (n <=? 122))%N.

(** ** The choices of [main] that are plain string computations *)

(** [uploaded_file.name.lower().endswith('.csv')]: the file goes to
    [read_csv], otherwise to [read_excel].  The only characters outside
    ASCII that [lower] maps into ASCII give "k" and "i", which are not in
    ".csv", so lowering the ASCII letters decides the test. *)
Definition reads_as_csv (name : string) : bool :=
  py_endswith ".csv" (PyStr.lower name).

(** [f"sticker_labels_{uploaded_file.name.split('.')[0]}.pdf"] *)
Definition download_filename (name : string) : string :=
  "sticker_labels_" +:+ hd "" (py_split "." name) +:+ ".pdf".

(** The display string of an optional field. *)
Definition optional_field (key : string) (f : Fields) : option string :=
  if String.eqb key "Part_per_veh" then Some (Part_per_veh f)
  else if String.eqb key "Type" then Some (Type_ f)
  else if String.eqb key "line_location" then Some (line_location_raw f)
  else None.

Definition optional_columns : list string :=
  ["Part_per_veh"; "Type"; "line_location"].

(** The fields of a record hold no newline. *)
Definition single_line (f : Fields) : Prop :=
  has_char (ascii_of_N 10) (ASSLY f) = false
  /\ has_char (ascii_of_N 10) (part_no f) = false
  /\ has_char (ascii_of_N 10) (desc f) = false
  /\ has_char (ascii_of_N 10) (Part_per_veh f) = false
  /\ has_char (ascii_of_N 10) (Type_ f) = false
  /\ has_char (ascii_of_N 10) (line_location_raw f) = false.

(** What a record adds to the display: its progress update, then the QR
    error if its payload cannot be encoded. *)
Definition record_events (env : Env) (total_rows : Z) (index : nat)
    (f : Fields) : list UIEvent :=
  Progress (Z.of_nat index + 1) total_rows
  :: qr_events env (qr_data (today_date env) f).

Definition is_progress (ev : UIEvent) : bool :=
  match ev with
  | Progress _ _ => true
  | _ => false
  end.

Definition is_qr_error (ev : UIEvent) : bool :=
  match ev with
  | ErrorQRCode => true
  | _ => false
  end.

(** The sum of a list of lengths, from the left as [sum] computes it. *)
Definition float_sum (l : list float) : float :=
  fold_left PrimFloat.add l 0%float.

(** The substring test of [find_column] between an alias and a header. *)
Definition alias_related (a c : string) : bool :=
  partial_hit (normalize_column_name a) (normalize_column_name c, c).

(** The keyword test of [find_column] on a header. *)
Definition has_location_keywords (c : string) : bool :=
  line_location_hit (normalize_column_name c, c).

(** The height and the width a table asks for. *)
Definition flowable_height (fl : Flowable) : float :=
  match fl with
  | Table _ _ rowHeights _ => float_sum rowHeights
  | PageBreak => 0%float
  end.

Definition flowable_width (fl : Flowable) : float :=
  match fl with
  | Table _ colWidths _ _ => float_sum colWidths
  | PageBreak => 0%float
  end.

(** A stand-in for ReportLab in the examples: a paragraph text with a
    ["<"] is rejected (as ReportLab rejects ["a<b"]), and a story is laid
    out when every column of every table has a positive width. *)
Definition positive_widths (fl : Flowable) : bool :=
  match fl with
  | Table _ colWidths _ _ => forallb (PrimFloat.ltb 0%float) colWidths
  | PageBreak => true
  end.

Definition sample_libraries : Libraries :=
  mkLibraries (fun text => negb (has_char "<" text))
              (fun doc => forallb positive_widths (story doc)).

(** Libraries that raise nothing. *)
Definition quiet_libraries : Libraries :=
  mkLibraries (fun _ => true) (fun _ => true).

(** A table with a quantity that ReportLab cannot parse, after a record
    whose payload the QR library of [sample_env] cannot encode. *)
Definition markup_table : DataFrame :=
  mkDataFrame
    ["Assy Name"; "Part No"; "Description"; "Qty / Veh"]
    [[Val "Door"; Val "P-2"; Val "Hinge"; Val "4"];
     [Val "Door"; Val "P-3"; Val "Bolt"; Val "a<b"]].

(** A table with the columns of [sample_table] and no record. *)
Definition empty_table : DataFrame :=
  mkDataFrame (columns sample_table) [].

(** ** The preview and the check made by [main] *)

(** [main] fills its own [found_columns] with the loop of the generator,
    repeated literally, and makes the same list [missing_required]; the
    button that starts the generation is in the branch taken when that
    list is empty. *)
Definition offers_generation (df : DataFrame) : bool :=
  match missing_required (find_columns (columns df)) with
  | [] => true
  | _ :: _ => false
  end.

(** [found_columns.items()]: the entries in the order they were inserted,
    which is the order of the fields in [column_mappings]. *)
Definition found_items (cols : list string) : list (string * string) :=
  flat_map (fun entry => match find_columns cols !! fst entry with
                         | Some col => [(fst entry, col)]
                         | None => []
                         end) column_mappings.

(** One step of a loop that collects results. *)
Fixpoint for_each {A B : Type} (body : A -> M B) (l : list A) : M (list B) :=
  match l with
  | [] => ret []
  | x :: rest =>
      do y <- body x ;
      do ys <- for_each body rest ;
      ret (y :: ys)
  end.

(** [row_data[key] = str(row[col]) if col in df.columns else "N/A"] *)
Definition preview_entry (cols : list string) (row : list Cell)
    (item : string * string) : M (string * string) :=
  if existsb (String.eqb (snd item)) cols
  then do v <- row_get cols row (snd item) ; ret (fst item, py_str v)
  else ret (fst item, "N/A").

(** [sample_data], from the first three records ([df.head(3)]). *)
Definition sample_data (df : DataFrame) : M (list (list (string * string))) :=
  for_each (fun row => for_each (preview_entry (columns df) row)
                                (found_items (columns df)))
           (firstn 3 (rows df)).

(** * Properties *)

(** ** Strings *)

Lemma split_underscore_nonempty (s : string) :
  PyStr.split_underscore s <> [].
Proof.
  induction s as [|c r IH]; simpl; [discriminate|].
  destruct (Ascii.eqb c "_"); [discriminate|].
  destruct (PyStr.split_underscore r); [contradiction|discriminate].
Qed.

(** Joining the segments with underscores gives the string back. *)
Lemma split_underscore_join (s : string) :
  String.concat "_" (PyStr.split_underscore s) = s.
Proof.
  induction s as [|c r IH]; [reflexivity|].
  simpl PyStr.split_underscore.
  destruct (Ascii.eqb_spec c "_"%char) as [->|Hc].
  - pose proof (split_underscore_nonempty r) as Hne.
    destruct (PyStr.split_underscore r) as [|h t] eqn:E; [contradiction|].
    change (String.concat "_" ("" :: h :: t))
      with (String "_" (String.concat "_" (h :: t))).
    now rewrite IH.
  - pose proof (split_underscore_nonempty r) as Hne.
    destruct (PyStr.split_underscore r) as [|h t] eqn:E; [contradiction|].
    destruct t as [|h' t'].
    + simpl in *. now rewrite IH.
    + change (String.concat "_" (String c h :: h' :: t'))
        with (String c (String.concat "_" (h :: h' :: t'))).
      now rewrite IH.
Qed.

(** ** The dictionary of normalized headers *)

Lemma dict_get_set_eq (k v : string) (d : PyDict.t) :
  PyDict.get k (PyDict.set k v d) = Some v.
Proof.
  induction d as [|[k' v'] d IH]; simpl.
  - now rewrite String.eqb_refl.
  - destruct (String.eqb k k') eqn:E; simpl; rewrite E; auto.
Qed.

Lemma dict_get_set_ne (k k' v : string) (d : PyDict.t) :
  k <> k' -> PyDict.get k' (PyDict.set k v d) = PyDict.get k' d.
Proof.
  intros Hne. induction d as [|[k0 v0] d IH]; simpl.
  - destruct (String.eqb_spec k' k); congruence.
  - destruct (String.eqb_spec k k0) as [->|Hk]; simpl.
    + destruct (String.eqb_spec k' k0); congruence.
    + destruct (String.eqb_spec k' k0); auto.
Qed.

Lemma dict_set_In (k v k' v' : string) (d : PyDict.t) :
  In (k', v') (PyDict.set k v d) -> In (k', v') d \/ (k' = k /\ v' = v).
Proof.
  induction d as [|[k0 v0] d IH]; simpl.
  - intros [H|[]]. inversion H. auto.
  - destruct (String.eqb_spec k k0) as [->|Hk]; simpl.
    + intros [H|H]; [inversion H; auto|auto].
    + intros [H|H]; [auto|]. destruct (IH H); auto.
Qed.

Lemma dict_get_In (k v : string) (d : PyDict.t) :
  PyDict.get k d = Some v -> In (k, v) d.
Proof.
  induction d as [|[k0 v0] d IH]; simpl; [discriminate|].
  destruct (String.eqb_spec k k0) as [->|Hk].
  - intros [= ->]. now left.
  - intros H. right. auto.
Qed.

(** Every item of the dictionary is a header of the table under its
    normalized form. *)
Lemma normalized_items_aux (cols0 cols : list string) (d : PyDict.t) :
  (forall c, In c cols -> In c cols0) ->
  (forall k v, In (k, v) d -> In v cols0 /\ k = normalize_column_name v) ->
  forall k v,
    In (k, v) (fold_left (fun d col =>
                            PyDict.set (normalize_column_name col) col d)
                         cols d) ->
    In v cols0 /\ k = normalize_column_name v.
Proof.
  revert d. induction cols as [|c cols IH]; intros d Hsub Hd k v; simpl.
  - apply Hd.
  - apply IH.
    + intros c' Hc'. apply Hsub. now right.
    + intros k' v' Hin. apply dict_set_In in Hin as [Hin|[-> ->]].
      * now apply Hd.
      * split; [apply Hsub; now left|reflexivity].
Qed.

Lemma normalized_items (cols : list string) (k v : string) :
  In (k, v) (normalized_df_columns cols) ->
  In v cols /\ k = normalize_column_name v.
Proof.
  apply normalized_items_aux; [auto|intros ? ? []].
Qed.

(** Looking a normalized form up gives the last header that has it. *)
Lemma normalized_get_aux (k : string) (cols : list string) :
  forall (d : PyDict.t) (acc : option string),
    PyDict.get k d = acc ->
    PyDict.get k (fold_left (fun d col =>
                               PyDict.set (normalize_column_name col) col d)
                            cols d)
    = fold_left (fun acc col =>
                   if String.eqb (normalize_column_name col) k then Some col
                   else acc) cols acc.
Proof.
  induction cols as [|c cols IH]; intros d acc Hd; simpl; [exact Hd|].
  apply IH.
  destruct (String.eqb_spec (normalize_column_name c) k) as [<-|Hne].
  - apply dict_get_set_eq.
  - rewrite dict_get_set_ne; auto.
Qed.

Lemma normalized_get (k : string) (cols : list string) :
  PyDict.get k (normalized_df_columns cols) = last_with_norm k cols.
Proof. now apply normalized_get_aux. Qed.

(** The header found is the last one with that normalized form. *)
Lemma last_with_norm_Some (k : string) (cols : list string) (h : string) :
  last_with_norm k cols = Some h ->
  exists cols1 cols2,
    cols = cols1 ++ h :: cols2
    /\ normalize_column_name h = k
    /\ (forall c, In c cols2 -> normalize_column_name c <> k).
Proof.
  unfold last_with_norm.
  induction cols as [|c cols IH] using rev_ind; simpl; [discriminate|].
  rewrite fold_left_app. simpl.
  destruct (String.eqb_spec (normalize_column_name c) k) as [Hk|Hk].
  - intros [= ->]. exists cols, []. split; [reflexivity|].
    split; [assumption|intros ? []].
  - intros H. destruct (IH H) as (c1 & c2 & -> & Hn & Hrest).
    exists c1, (c2 ++ [c]). split; [now rewrite <- app_assoc|].
    split; [assumption|].
    intros c' Hin. apply in_app_or in Hin as [Hin|[<-|[]]]; auto.
Qed.

Lemma last_with_norm_exists (k : string) (cols : list string) (h : string) :
  In h cols -> normalize_column_name h = k ->
  exists h', last_with_norm k cols = Some h'.
Proof.
  unfold last_with_norm.
  induction cols as [|c cols IH] using rev_ind; intros Hin Hk; [destruct Hin|].
  rewrite fold_left_app. simpl.
  destruct (String.eqb_spec (normalize_column_name c) k) as [Hc|Hc]; eauto.
  apply in_app_or in Hin as [Hin|[<-|[]]]; [auto|contradiction].
Qed.

Lemma last_with_norm_None (k : string) (cols : list string) :
  last_with_norm k cols = None ->
  forall c, In c cols -> normalize_column_name c <> k.
Proof.
  intros Hnone c Hin Hk.
  destruct (last_with_norm_exists k cols c Hin Hk) as [h' Hh'].
  congruence.
Qed.

(** ** The three loops of [find_column] *)

Lemma find_exact_Some (d : PyDict.t) (A : list string) (h : string) :
  find_exact d (map normalize_column_name A) = Some h ->
  exists A1 a A2,
    A = A1 ++ a :: A2
    /\ PyDict.get (normalize_column_name a) d = Some h
    /\ (forall x, In x A1 -> PyDict.get (normalize_column_name x) d = None).
Proof.
  induction A as [|a A IH]; simpl; [discriminate|].
  destruct (PyDict.get (normalize_column_name a) d) as [v|] eqn:E.
  - intros [= ->]. exists [], a, A. split; [reflexivity|].
    split; [assumption|intros ? []].
  - intros H. destruct (IH H) as (A1 & a' & A2 & -> & Hget & Hbefore).
    exists (a :: A1), a', A2. split; [reflexivity|].
    split; [assumption|].
    intros x [<-|Hx]; auto.
Qed.

Lemma find_exact_None (d : PyDict.t) (A : list string) :
  find_exact d (map normalize_column_name A) = None ->
  forall a, In a A -> PyDict.get (normalize_column_name a) d = None.
Proof.
  induction A as [|a A IH]; simpl; [intros _ ? []|].
  destruct (PyDict.get (normalize_column_name a) d) eqn:E; [discriminate|].
  intros H x [<-|Hx]; auto.
Qed.

Lemma find_partial_In (d : PyDict.t) (names : list string) (h : string) :
  find_partial d names = Some h -> exists k, In (k, h) d.
Proof.
  induction names as [|n names IH]; simpl; [discriminate|].
  destruct (List.find (partial_hit n) d) as [[k v]|] eqn:E; [|exact IH].
  intros [= <-]. exists k. apply find_some in E. tauto.
Qed.

Lemma find_keyword_In (d : PyDict.t) (h : string) :
  find_keyword d = Some h -> exists k, In (k, h) d.
Proof.
  unfold find_keyword.
  destruct (List.find line_location_hit d) as [[k v]|] eqn:E; [|discriminate].
  intros [= <-]. exists k. apply find_some in E. tauto.
Qed.

(** Whatever [find_column] returns is a header of the table. *)
Lemma find_column_In (cols names : list string) (h : string) :
  find_column cols names = Some h -> In h cols.
Proof.
  unfold find_column.
  destruct (find_exact _ _) as [e|] eqn:Ee.
  - intros [= <-]. apply find_exact_Some in Ee as (_ & a & _ & _ & Hget & _).
    apply dict_get_In, normalized_items in Hget. tauto.
  - destruct (find_partial _ _) as [p|] eqn:Ep.
    + intros [= <-]. apply find_partial_In in Ep as [k Hk].
      apply normalized_items in Hk. tauto.
    + intros Hk. apply find_keyword_In in Hk as [k Hk].
      apply normalized_items in Hk. tauto.
Qed.

(** ** The resolved mapping *)

Lemma record_columns_lookup (cols : list string)
    (entries : list (string * list string)) :
  forall (found : gmap string string) (key : string),
    NoDup (map fst entries) ->
    fold_left (record_column cols) entries found !! key
    = match List.find (fun e => String.eqb (fst e) key) entries with
      | Some e =>
          match resolve cols (snd e) with
          | Some h => Some h
          | None => found !! key
          end
      | None => found !! key
      end.
Proof.
  induction entries as [|[k names] entries IH]; intros found key Hnd;
    simpl; [reflexivity|].
  inversion Hnd as [|? ? Hnotin Hnd']; subst.
  rewrite IH by assumption.
  destruct (String.eqb_spec k key) as [->|Hk].
  - assert (List.find (fun e => String.eqb (fst e) key) entries = None)
      as ->.
    { destruct (List.find _ entries) as [e|] eqn:E; [|reflexivity].
      apply find_some in E as [Hin He].
      apply String.eqb_eq in He. subst key.
      exfalso. apply Hnotin, list_elem_of_In. simpl.
      now apply (in_map fst) in Hin. }
    unfold record_column, resolve. simpl.
    destruct (find_column cols names) as [h|]; [|reflexivity].
    destruct (PyStr.truthy h); [|reflexivity].
    apply lookup_insert_eq.
  - assert (record_column cols found (k, names) !! key = found !! key)
      as Hsame.
    { unfold record_column. simpl.
      destruct (find_column cols names) as [h|]; [|reflexivity].
      destruct (PyStr.truthy h); [|reflexivity].
      now apply lookup_insert_ne. }
    now rewrite Hsame.
Qed.

Lemma column_mappings_NoDup : NoDup (map fst column_mappings).
Proof.
  apply NoDup_ListNoDup. simpl.
  repeat (constructor; [simpl; intuition discriminate|]). constructor.
Qed.

(** The entry of a field in the resolved mapping is what [find_column]
    returns for its aliases, when that is a non-empty label. *)
Lemma find_columns_lookup (cols : list string) (key : string) :
  find_columns cols !! key
  = match List.find (fun e => String.eqb (fst e) key) column_mappings with
    | Some e => resolve cols (snd e)
    | None => None
    end.
Proof.
  unfold find_columns.
  rewrite record_columns_lookup by apply column_mappings_NoDup.
  destruct (List.find _ column_mappings) as [e|]; [|apply lookup_empty].
  destruct (resolve cols (snd e)); [reflexivity|apply lookup_empty].
Qed.

(** Every column of the resolved mapping exists in the table. *)
Lemma find_columns_In (cols : list string) (key col : string) :
  find_columns cols !! key = Some col -> In col cols.
Proof.
  rewrite find_columns_lookup.
  destruct (List.find _ column_mappings) as [e|]; [|discriminate].
  unfold resolve.
  destruct (find_column cols (snd e)) as [h|] eqn:E; [|discriminate].
  destruct (PyStr.truthy h); [|discriminate].
  intros [= <-]. eapply find_column_In; eauto.
Qed.

Lemma missing_required_In (found : gmap string string) (key : string) :
  In key (missing_required found)
  <-> In key required_columns /\ found !! key = None.
Proof.
  unfold missing_required. rewrite filter_In.
  destruct (found !! key); intuition congruence.
Qed.

Lemma missing_required_nil (found : gmap string string) (key : string) :
  missing_required found = [] -> In key required_columns ->
  exists col, found !! key = Some col.
Proof.
  intros Hnil Hin.
  destruct (found !! key) as [col|] eqn:E; [eauto|].
  assert (In key (missing_required found)) as H
    by (apply missing_required_In; auto).
  rewrite Hnil in H. destruct H.
Qed.

(** ** Reading a record *)

Lemma row_lookup_Some (cols : list string) (row : list Cell) (col : string) :
  length row = length cols -> In col cols ->
  exists v, row_lookup cols row col = Some v.
Proof.
  revert row. induction cols as [|c cols IH]; intros row Hlen Hin;
    [destruct Hin|].
  destruct row as [|v row]; [discriminate|]. simpl.
  destruct (String.eqb_spec col c) as [->|Hne]; [eauto|].
  apply IH; [simpl in Hlen; lia|].
  destruct Hin as [<-|Hin]; [contradiction|assumption].
Qed.

Lemma extract_required_cell (found : gmap string string)
    (cols : list string) (row : list Cell) (key col : string) (v : Cell) :
  found !! key = Some col -> row_lookup cols row col = Some v ->
  forall log, extract_required found cols row key log = (inl (py_str v), log).
Proof.
  intros Hf Hv log. unfold extract_required, row_get, bind, ret.
  now rewrite Hf, Hv.
Qed.

Lemma extract_required_total (found : gmap string string)
    (cols : list string) (row : list Cell) (key : string) :
  length row = length cols ->
  (forall col, found !! key = Some col -> In col cols) ->
  exists s, forall log, extract_required found cols row key log = (inl s, log).
Proof.
  intros Hlen Hin. destruct (found !! key) as [col|] eqn:Hf.
  - destruct (row_lookup_Some cols row col Hlen (Hin col eq_refl)) as [v Hv].
    exists (py_str v). now apply extract_required_cell with col.
  - exists "N/A". intros log. unfold extract_required. now rewrite Hf.
Qed.

Lemma extract_optional_total (found : gmap string string)
    (cols : list string) (row : list Cell) (key : string) :
  length row = length cols ->
  (forall col, found !! key = Some col -> In col cols) ->
  exists s, forall log, extract_optional found cols row key log = (inl s, log).
Proof.
  intros Hlen Hin. unfold extract_optional.
  destruct (found !! key) as [col|] eqn:Hf.
  - destruct (row_lookup_Some cols row col Hlen (Hin col eq_refl)) as [v Hv].
    exists (if notna v then py_str v else "").
    intros log. unfold row_get, bind, ret. rewrite Hv.
    destruct (notna v); reflexivity.
  - exists "". reflexivity.
Qed.

Lemma extract_fields_run (found : gmap string string) (cols : list string)
    (row : list Cell) (a p d q t l : string) :
  (forall log, extract_required found cols row "ASSLY" log = (inl a, log)) ->
  (forall log, extract_required found cols row "part_no" log = (inl p, log)) ->
  (forall log,
     extract_required found cols row "description" log = (inl d, log)) ->
  (forall log,
     extract_optional found cols row "Part_per_veh" log = (inl q, log)) ->
  (forall log, extract_optional found cols row "Type" log = (inl t, log)) ->
  (forall log,
     extract_optional found cols row "line_location" log = (inl l, log)) ->
  fields_of_row found cols row (mkFields a p d q t l).
Proof.
  intros Ha Hp Hd Hq Ht Hl log. unfold extract_fields, bind, ret.
  now rewrite Ha, Hp, Hd, Hq, Ht, Hl.
Qed.

(** On a rectangular table, reading the fields of a record raises nothing
    and displays nothing. *)
Lemma extract_fields_total (found : gmap string string)
    (cols : list string) (row : list Cell) :
  length row = length cols ->
  (forall key col, found !! key = Some col -> In col cols) ->
  exists f,
    fields_of_row found cols row f
    /\ (forall key s,
          required_field key f = Some s ->
          forall log, extract_required found cols row key log = (inl s, log)).
Proof.
  intros Hlen Hin.
  destruct (extract_required_total found cols row "ASSLY" Hlen (Hin _))
    as [a Ha].
  destruct (extract_required_total found cols row "part_no" Hlen (Hin _))
    as [p Hp].
  destruct (extract_required_total found cols row "description" Hlen (Hin _))
    as [d Hd].
  destruct (extract_optional_total found cols row "Part_per_veh" Hlen (Hin _))
    as [q Hq].
  destruct (extract_optional_total found cols row "Type" Hlen (Hin _))
    as [t Ht].
  destruct (extract_optional_total found cols row "line_location" Hlen
              (Hin _)) as [l Hl].
  exists (mkFields a p d q t l).
  split; [now apply extract_fields_run|].
  intros key s. unfold required_field. cbn [ASSLY part_no desc].
  destruct (String.eqb_spec key "ASSLY") as [->|_]; [now intros [= <-]|].
  destruct (String.eqb_spec key "part_no") as [->|_]; [now intros [= <-]|].
  destruct (String.eqb_spec key "description") as [->|_];
    [now intros [= <-]|discriminate].
Qed.

Lemma fields_of_row_unique (found : gmap string string) (cols : list string)
    (row : list Cell) (f g : Fields) :
  fields_of_row found cols row f -> fields_of_row found cols row g -> f = g.
Proof.
  intros Hf Hg. specialize (Hf []). specialize (Hg []). congruence.
Qed.

(** ** One sticker *)

Lemma build_sticker_run (env : Env) (cfg : Layout)
    (found : gmap string string) (cols : list string) (row : list Cell)
    (f : Fields) :
  fields_of_row found cols row f ->
  forall log,
    build_sticker env cfg found cols row log
    = (inl (sticker_tables (today_date env) cfg f
              (match qr_png env (qr_data (today_date env) f) with
               | Some png => Image png (1.8 * cm)%float (1.8 * cm)%float
               | None => Paragraph "QR" QRPlaceholder
               end)),
       log ++ qr_events env (qr_data (today_date env) f)).
Proof.
  intros Hf log. unfold build_sticker, bind. rewrite Hf.
  unfold generate_qr_code, qr_events, bind, display, ret.
  destruct (qr_png env (qr_data (today_date env) f)); simpl;
    [now rewrite app_nil_r|reflexivity].
Qed.

(** ** The loop over the records *)

Lemma qr_events_harmless (env : Env) (data : string) :
  Forall harmless (qr_events env data).
Proof.
  unfold qr_events. destruct (qr_png env data); repeat constructor.
Qed.

Lemma process_rows_run (env : Env) (cfg : Layout)
    (found : gmap string string) (cols : list string) (total_rows : Z)
    (todo : list (list Cell)) :
  Forall (fun row => length row = length cols) todo ->
  (forall key col, found !! key = Some col -> In col cols) ->
  forall (index : Z) (all_elements : list Flowable) (log : list UIEvent),
    total_rows = (index + Z.of_nat (length todo))%Z ->
    exists pages evs,
      Forall2 (sticker_page env cfg found cols) todo pages
      /\ Forall harmless evs
      /\ process_rows env cfg found cols total_rows index todo all_elements
           log
         = (inl (all_elements ++ join_pages pages), log ++ evs).
Proof.
  intros Hrows Hin.
  induction Hrows as [|row rest Hlen Hrest IH];
    intros index all_elements log Htotal.
  - exists [], []. split; [constructor|]. split; [constructor|].
    simpl. unfold ret. now rewrite !app_nil_r.
  - destruct (extract_fields_total found cols row Hlen Hin) as [f [Hf _]].
    set (page := sticker_tables (today_date env) cfg f
              (match qr_png env (qr_data (today_date env) f) with
               | Some png => Image png (1.8 * cm)%float (1.8 * cm)%float
               | None => Paragraph "QR" QRPlaceholder
               end)).
    set (all' := if (index <? total_rows - 1)%Z
                 then (all_elements ++ page) ++ [PageBreak]
                 else all_elements ++ page).
    assert (total_rows = (index + 1 + Z.of_nat (length rest))%Z) as Hnext
      by (simpl length in Htotal; lia).
    destruct (IH (index + 1)%Z all'
                 ((log ++ [Progress (index + 1) total_rows])
                    ++ qr_events env (qr_data (today_date env) f)) Hnext)
      as (pages & evs & Hpages & Hevs & Hrun).
    exists (page :: pages),
      ([Progress (index + 1) total_rows]
         ++ qr_events env (qr_data (today_date env) f) ++ evs).
    split; [constructor; [exists f; split; [exact Hf|reflexivity]|exact Hpages]|].
    split.
    { constructor; [exact I|]. apply Forall_app. split;
        [apply qr_events_harmless|exact Hevs]. }
    simpl process_rows. unfold bind at 1. unfold display at 1.
    unfold bind at 1. rewrite (build_sticker_run env cfg found cols row f Hf).
    fold page. fold all'. rewrite Hrun. f_equal.
    + f_equal. subst all'. destruct rest as [|row' rest'].
      * assert ((index <? total_rows - 1)%Z = false) as ->
          by (simpl in Hnext; lia).
        inversion Hpages; subst pages. simpl. now rewrite app_nil_r.
      * assert ((index <? total_rows - 1)%Z = true) as ->
          by (simpl length in Hnext; lia).
        inversion Hpages as [|? p' ? ps' ? ? Heq]; subst pages.
        simpl join_pages. now rewrite <- !app_assoc.
    + now rewrite <- !app_assoc.
Qed.

(** ** The whole run *)

(** When no required column is missing, the run returns the document whose
    story is the stickers of the records, in order, joined by page breaks,
    together with the resolved mapping. *)
Lemma generate_story (env : Env) (df : DataFrame) (cfg : Layout) :
  well_formed df ->
  missing_required (find_columns (columns df)) = [] ->
  exists pages evs,
    Forall2 (sticker_page env cfg (find_columns (columns df)) (columns df))
            (rows df) pages
    /\ Forall harmless evs
    /\ generate_sticker_labels env df cfg
       = mkOutcome (Some (build_document (join_pages pages),
                          find_columns (columns df))) evs.
Proof.
  intros [_ Hrect] Hmiss.
  destruct (process_rows_run env cfg (find_columns (columns df)) (columns df)
              (Z.of_nat (length (rows df))) (rows df) Hrect
              (find_columns_In (columns df)) 0%Z [] [ProgressBar 0])
    as (pages & evs & Hpages & Hevs & Hrun); [lia|].
  exists pages, (ProgressBar 0 :: evs). split; [exact Hpages|].
  split; [constructor; [exact I|exact Hevs]|].
  unfold generate_sticker_labels, generate_body. rewrite Hmiss.
  unfold bind, display. cbn [app]. rewrite Hrun. reflexivity.
Qed.

(** ** Pages and page breaks *)

Lemma sticker_page_three_tables (env : Env) (cfg : Layout)
    (found : gmap string string) (cols : list string) (row : list Cell)
    (page : list Flowable) :
  sticker_page env cfg found cols row page -> three_tables page.
Proof. intros (f & _ & ->). exact I. Qed.

Lemma three_tables_no_break (page : list Flowable) :
  three_tables page -> count_page_breaks page = 0.
Proof.
  destruct page as [|[] [|[] [|[] [|? ?]]]]; simpl; try contradiction.
  reflexivity.
Qed.

Lemma count_page_breaks_app (l1 l2 : list Flowable) :
  count_page_breaks (l1 ++ l2) = count_page_breaks l1 + count_page_breaks l2.
Proof.
  unfold count_page_breaks. now rewrite List.filter_app, length_app.
Qed.

Lemma count_page_breaks_join (pages : list (list Flowable)) :
  Forall three_tables pages ->
  count_page_breaks (join_pages pages) = pred (length pages).
Proof.
  induction 1 as [|page rest Hpage Hrest IH]; [reflexivity|].
  destruct rest as [|page' rest'].
  - simpl. now apply three_tables_no_break.
  - change (join_pages (page :: page' :: rest'))
      with (page ++ PageBreak :: join_pages (page' :: rest')).
    rewrite count_page_breaks_app, (three_tables_no_break page Hpage).
    change (count_page_breaks (PageBreak :: join_pages (page' :: rest')))
      with (S (count_page_breaks (join_pages (page' :: rest')))).
    rewrite IH. reflexivity.
Qed.

Lemma join_pages_nonempty (page : list Flowable)
    (rest : list (list Flowable)) :
  three_tables page -> join_pages (page :: rest) <> [].
Proof.
  destruct page as [|fl page]; [contradiction|].
  intros _. destruct rest; discriminate.
Qed.

Lemma last_join_pages (pages : list (list Flowable)) (fl : Flowable) :
  Forall three_tables pages ->
  last (join_pages pages) = Some fl -> is_page_break fl = false.
Proof.
  induction 1 as [|page rest Hpage Hrest IH]; [discriminate|].
  destruct rest as [|page' rest'].
  - destruct page as [|[] [|[] [|[] [|? ?]]]]; simpl in Hpage;
      try contradiction.
    simpl. now intros [= <-].
  - change (join_pages (page :: page' :: rest'))
      with (page ++ PageBreak :: join_pages (page' :: rest')).
    rewrite last_app, last_cons.
    destruct (last (join_pages (page' :: rest'))) as [fl'|] eqn:E.
    + intros [= <-]. now apply IH.
    + apply last_None in E.
      now apply join_pages_nonempty in E; [|apply (Forall_inv Hrest)].
Qed.

(** A map over the story of two documents agrees when it agrees page by
    page. *)
Lemma map_join_pages {B : Type} (g : Flowable -> B)
    (pages1 pages2 : list (list Flowable)) :
  Forall2 (fun p1 p2 => map g p1 = map g p2) pages1 pages2 ->
  map g (join_pages pages1) = map g (join_pages pages2).
Proof.
  induction 1 as [|p1 p2 r1 r2 Hp Hr IH]; [reflexivity|].
  destruct Hr as [|q1 q2 s1 s2 Hq Hs].
  - exact Hp.
  - change (join_pages (p1 :: q1 :: s1))
      with (p1 ++ PageBreak :: join_pages (q1 :: s1)).
    change (join_pages (p2 :: q2 :: s2))
      with (p2 ++ PageBreak :: join_pages (q2 :: s2)).
    rewrite !map_app, Hp. cbn [map]. now rewrite IH.
Qed.

Lemma sticker_tables_shape (today today' : string) (cfg : Layout)
    (f f' : Fields) (c c' : CellValue) :
  map flowable_shape (sticker_tables today cfg f c)
  = map flowable_shape (sticker_tables today' cfg f' c').
Proof.
  unfold sticker_tables. cbn [map flowable_shape firstn skipn nth length].
  unfold location_box.
  reflexivity.
Qed.

Lemma sticker_tables_texts (today : string) (cfg : Layout) (f : Fields)
    (c c' : CellValue) :
  cell_text c = cell_text c' ->
  map flowable_texts (sticker_tables today cfg f c)
  = map flowable_texts (sticker_tables today cfg f c').
Proof.
  intros Hc. unfold sticker_tables.
  cbn [map flowable_texts cell_text firstn skipn nth].
  now rewrite Hc.
Qed.

Lemma sticker_tables_code_cell (today : string) (cfg : Layout) (f : Fields)
    (c c' : CellValue) :
  sticker_tables today cfg f c
  = with_code_cell c (sticker_tables today cfg f c').
Proof. reflexivity. Qed.

(** The stickers of two runs over the same records, side by side. *)
Lemma sticker_pages_related (R : list Flowable -> list Flowable -> Prop)
    (env1 env2 : Env) (cfg : Layout) (found : gmap string string)
    (cols : list string) (todo : list (list Cell))
    (pages1 pages2 : list (list Flowable)) :
  (forall row p1 p2,
     sticker_page env1 cfg found cols row p1 ->
     sticker_page env2 cfg found cols row p2 -> R p1 p2) ->
  Forall2 (sticker_page env1 cfg found cols) todo pages1 ->
  Forall2 (sticker_page env2 cfg found cols) todo pages2 ->
  Forall2 R pages1 pages2.
Proof.
  intros HR H1. revert pages2.
  induction H1 as [|row p1 rest ps1 Hp1 Hrest IH]; intros pages2 H2;
    inversion H2; subst; constructor; eauto.
Qed.

Lemma append_assoc (s1 s2 s3 : string) :
  (s1 +:+ s2) +:+ s3 = s1 +:+ (s2 +:+ s3).
Proof.
  induction s1 as [|c s1 IH]; [reflexivity|].
  change (String c ((s1 +:+ s2) +:+ s3) = String c (s1 +:+ (s2 +:+ s3))).
  now rewrite IH.
Qed.

(** A run that stops at the check of the required columns. *)
Lemma generate_missing (env : Env) (df : DataFrame) (cfg : Layout) :
  missing_required (find_columns (columns df)) <> [] ->
  generate_sticker_labels env df cfg
  = mkOutcome None
      [ErrorMissingRequired (missing_required (find_columns (columns df)))].
Proof.
  intros Hne. unfold generate_sticker_labels, generate_body.
  destruct (missing_required (find_columns (columns df)));
    [contradiction|reflexivity].
Qed.

(** ** The run with the failures of the libraries *)

Lemma parse_line_location_four (L : string) :
  exists b1 b2 b3 b4, parse_line_location L = [b1; b2; b3; b4].
Proof.
  unfold parse_line_location.
  destruct L as [|c r]; [cbn; eauto|].
  cbv beta iota delta [PyStr.truthy negb].
  destruct (PyStr.split_underscore (String c r))
    as [|s1 [|s2 [|s3 [|s4 rest]]]]; cbn; eauto.
Qed.

(** One sticker: the QR error is displayed first, then the first text that
    is not accepted raises; without such a text the sticker is built. *)
Lemma build_sticker_with_run (lib : Libraries) (env : Env) (cfg : Layout)
    (found : gmap string string) (cols : list string) (row : list Cell)
    (f : Fields) :
  fields_of_row found cols row f ->
  forall log,
    build_sticker_with lib env cfg found cols row log
    = (match first_rejected_text lib env f with
       | Some text => inr (ValueError text)
       | None => inl (page_of_fields env cfg f)
       end,
       log ++ qr_events env (qr_data (today_date env) f)).
Proof.
  intros Hf log.
  unfold build_sticker_with, bind at 1. rewrite Hf.
  unfold first_rejected_text, paragraph_texts, cell_texts, page_of_fields,
    code_cell_of, sticker_tables, qr_events.
  destruct (parse_line_location_four (line_location_raw f))
    as (b1 & b2 & b3 & b4 & ->).
  unfold generate_qr_code, make_location_box, location_box, make_paragraph.
  destruct (qr_png env (qr_data (today_date env) f)) as [png|];
    destruct b1 as [|c1 b1], b2 as [|c2 b2], b3 as [|c3 b3],
      b4 as [|c4 b4];
    cbn [nth PyStr.truthy List.filter app List.find negb];
    unfold bind, display, ret, raise;
    repeat match goal with
           | |- context [paragraph_accepts lib ?t] =>
               destruct (paragraph_accepts lib t) eqn:?;
               cbn [negb List.find]
           end;
    rewrite ?app_nil_r; try reflexivity; try congruence.
Qed.

(** The loop on the default index: the stickers of the records up to the
    first text that is not accepted. *)
Lemma process_rows_with_run (lib : Libraries) (env : Env) (cfg : Layout)
    (found : gmap string string) (cols : list string) (total_rows : Z)
    (todo : list (list Cell)) :
  Forall (fun row => length row = length cols) todo ->
  (forall key col, found !! key = Some col -> In col cols) ->
  exists fs,
    Forall2 (fields_of_row found cols) todo fs
    /\ forall (index : nat) (all_elements : list Flowable)
              (log : list UIEvent),
        total_rows = Z.of_nat (index + length todo) ->
        process_rows_with lib env cfg found cols total_rows
          (combine (map Z.of_nat (seq index (length todo))) todo)
          all_elements log
        = (match first_rejected lib env fs with
           | Some text => inr (ValueError text)
           | None =>
               inl (all_elements
                    ++ join_pages (map (page_of_fields env cfg) fs))
           end,
           log ++ concat (imap (fun j => record_events env total_rows
                                           (index + j))
                               (firstn (records_started lib env fs) fs))).
Proof.
  intros Hrows Hin.
  induction Hrows as [|row rest Hlen Hrest IH].
  - exists []. split; [constructor|]. intros index all_elements log _.
    cbn. unfold ret. now rewrite !app_nil_r.
  - destruct IH as (fs & Hfs & IH).
    destruct (extract_fields_total found cols row Hlen Hin) as [f [Hf _]].
    exists (f :: fs). split; [now constructor|].
    intros index all_elements log Htotal.
    cbn [length seq map combine process_rows_with].
    unfold bind at 1. unfold set_progress.
    assert ((0 <=? Z.of_nat index + 1)%Z
            && (Z.of_nat index + 1 <=? total_rows)%Z = true) as ->.
    { cbn [length] in Htotal. apply andb_true_iff. split; lia. }
    unfold display at 1. unfold bind at 1.
    rewrite (build_sticker_with_run lib env cfg found cols row f Hf).
    cbn [first_rejected records_started].
    destruct (first_rejected_text lib env f) as [text|] eqn:Hrej.
    + cbn [firstn imap concat]. rewrite app_nil_r.
      unfold record_events. replace (index + 0) with index by lia.
      now rewrite <- !app_assoc.
    + assert (total_rows = Z.of_nat (S index + length rest)) as Hnext
        by (cbn [length] in Htotal; lia).
      rewrite (IH (S index) _ _ Hnext).
      cbn [firstn imap concat]. f_equal.
      * destruct (first_rejected lib env fs); [reflexivity|]. f_equal.
        destruct rest as [|row' rest'].
        -- inversion Hfs; subst fs.
           assert ((Z.of_nat index <? total_rows - 1)%Z = false) as ->
             by (cbn in Htotal; lia).
           cbn. now rewrite app_nil_r.
        -- inversion Hfs as [|? f' ? fs' ? ? Heq]; subst fs.
           assert ((Z.of_nat index <? total_rows - 1)%Z = true) as ->
             by (cbn [length] in Htotal; lia).
           cbn [map join_pages]. now rewrite <- !app_assoc.
      * unfold record_events at 2. replace (index + 0) with index by lia.
        rewrite <- !app_assoc. cbn [app]. do 4 f_equal.
        apply imap_ext. intros j x _. cbn. f_equal. lia.
Qed.

(** A run on the default index whose required columns are resolved: what
    it displays and what it returns. *)
Lemma generate_with_run (lib : Libraries) (env : Env) (df : DataFrame)
    (cfg : Layout) :
  well_formed df ->
  missing_required (find_columns (columns df)) = [] ->
  exists fs,
    Forall2 (fields_of_row (find_columns (columns df)) (columns df))
            (rows df) fs
    /\ generate_sticker_labels_with lib env (default_index df) df cfg
       = mkOutcome
           (match first_rejected lib env fs with
            | Some _ => None
            | None =>
                if builds lib (document_of env cfg fs)
                then Some (document_of env cfg fs, find_columns (columns df))
                else None
            end)
           (ProgressBar 0
            :: concat (imap (record_events env
                               (Z.of_nat (length (rows df))))
                            (firstn (records_started lib env fs) fs))
            ++ match first_rejected lib env fs with
               | Some text => [ErrorPDF (ValueError text)]
               | None =>
                   if builds lib (document_of env cfg fs) then []
                   else [ErrorPDF LayoutError]
               end).
Proof.
  intros [_ Hrect] Hmiss.
  destruct (process_rows_with_run lib env cfg (find_columns (columns df))
              (columns df) (Z.of_nat (length (rows df))) (rows df) Hrect
              (find_columns_In (columns df))) as (fs & Hfs & Hrun).
  exists fs. split; [exact Hfs|].
  unfold generate_sticker_labels_with, generate_body_with, default_index.
  rewrite Hmiss. unfold bind at 1. unfold display at 1. cbn [app].
  unfold bind at 1. rewrite (Hrun 0 [] [ProgressBar 0] eq_refl).
  unfold document_of.
  destruct (first_rejected lib env fs) as [text|]; [reflexivity|].
  unfold ret, raise.
  destruct (builds lib _); cbn [app]; now rewrite ?app_nil_r.
Qed.

(** With libraries that raise nothing and the default index, the run is
    the run of [generate_sticker_labels], on every table. *)
Lemma build_sticker_quiet (env : Env) (cfg : Layout)
    (found : gmap string string) (cols : list string) (row : list Cell)
    (log : list UIEvent) :
  build_sticker_with quiet_libraries env cfg found cols row log
  = build_sticker env cfg found cols row log.
Proof.
  unfold build_sticker_with, build_sticker, bind.
  destruct (extract_fields found cols row log) as [[f|e] log']; [|reflexivity].
  unfold sticker_tables.
  destruct (parse_line_location_four (line_location_raw f))
    as (b1 & b2 & b3 & b4 & ->).
  unfold generate_qr_code, make_location_box, location_box, make_paragraph,
    qr_cell_of.
  destruct (qr_png env (qr_data (today_date env) f)) as [png|];
    destruct b1 as [|c1 b1], b2 as [|c2 b2], b3 as [|c3 b3],
      b4 as [|c4 b4];
    reflexivity.
Qed.

Lemma process_rows_quiet (env : Env) (cfg : Layout)
    (found : gmap string string) (cols : list string) (total_rows : Z)
    (todo : list (list Cell)) :
  forall (index : nat) (all_elements : list Flowable) (log : list UIEvent),
    total_rows = Z.of_nat (index + length todo) ->
    process_rows_with quiet_libraries env cfg found cols total_rows
      (combine (map Z.of_nat (seq index (length todo))) todo) all_elements log
    = process_rows env cfg found cols total_rows (Z.of_nat index) todo
        all_elements log.
Proof.
  induction todo as [|row rest IH]; intros index all_elements log Htotal;
    [reflexivity|].
  cbn [length seq map combine process_rows_with process_rows].
  unfold bind, set_progress.
  assert ((0 <=? Z.of_nat index + 1)%Z
          && (Z.of_nat index + 1 <=? total_rows)%Z = true) as ->.
  { cbn [length] in Htotal. apply andb_true_iff. split; lia. }
  unfold display. rewrite build_sticker_quiet.
  destruct (build_sticker env cfg found cols row _) as [[elements|e] log'];
    [|reflexivity].
  rewrite IH by (cbn [length] in Htotal; lia).
  now replace (Z.of_nat index + 1)%Z with (Z.of_nat (S index)) by lia.
Qed.

Lemma generate_quiet (env : Env) (df : DataFrame) (cfg : Layout) :
  generate_sticker_labels_with quiet_libraries env (default_index df) df cfg
  = generate_sticker_labels env df cfg.
Proof.
  unfold generate_sticker_labels_with, generate_sticker_labels,
    generate_body_with, generate_body, default_index.
  destruct (missing_required (find_columns (columns df))); [|reflexivity].
  unfold bind, display.
  rewrite (process_rows_quiet env cfg _ _ _ (rows df) 0 [] _ eq_refl).
  destruct (process_rows _ _ _ _ _ _ _ _ _) as [[out|e] log]; reflexivity.
Qed.

Lemma find_rejected_None (accepts : string -> bool) (texts : list string) :
  List.find (fun text => negb (accepts text)) texts = None
  <-> forallb accepts texts = true.
Proof.
  induction texts as [|t texts IH]; [cbn; tauto|].
  cbn [List.find forallb]. destruct (accepts t); cbn [negb andb];
    [exact IH|split; discriminate].
Qed.

Lemma first_rejected_None (lib : Libraries) (env : Env) (fs : list Fields) :
  first_rejected lib env fs = None
  <-> Forall (fun f => record_accepted lib env f = true) fs.
Proof.
  induction fs as [|f fs IH]; [cbn; split; [constructor|reflexivity]|].
  cbn [first_rejected].
  destruct (first_rejected_text lib env f) as [text|] eqn:E.
  - split; [discriminate|]. intros H. apply Forall_inv in H.
    apply find_rejected_None in H. unfold first_rejected_text in E.
    congruence.
  - rewrite IH. split.
    + intros H. constructor; [now apply find_rejected_None|exact H].
    + intros H. now apply Forall_inv_tail in H.
Qed.



Lemma records_started_le (lib : Libraries) (env : Env) (fs : list Fields) :
  records_started lib env fs <= length fs.
Proof.
  induction fs as [|f fs IH]; [reflexivity|].
  cbn [records_started length].
  destruct (first_rejected_text lib env f); lia.
Qed.

Lemma records_started_all (lib : Libraries) (env : Env) (fs : list Fields) :
  first_rejected lib env fs = None ->
  records_started lib env fs = length fs.
Proof.
  induction fs as [|f fs IH]; [reflexivity|].
  cbn [first_rejected records_started length].
  destruct (first_rejected_text lib env f); [discriminate|].
  intros H. now rewrite IH.
Qed.

Lemma sticker_pages_of_fields (env : Env) (cfg : Layout)
    (found : gmap string string) (cols : list string)
    (todo : list (list Cell)) (fs : list Fields) :
  Forall2 (fields_of_row found cols) todo fs ->
  Forall2 (sticker_page env cfg found cols) todo
          (map (page_of_fields env cfg) fs).
Proof.
  induction 1 as [|row f rest fs Hf Hrest IH]; constructor; [|exact IH].
  exists f. split; [exact Hf|reflexivity].
Qed.

(** How a run that returns nothing ends. *)
Lemma generate_with_outcome (lib : Libraries) (env : Env) (df : DataFrame)
    (cfg : Layout) :
  well_formed df ->
  missing_required (find_columns (columns df)) = [] ->
  exists fs,
    Forall2 (fields_of_row (find_columns (columns df)) (columns df))
            (rows df) fs
    /\ (first_rejected lib env fs = None ->
        builds lib (document_of env cfg fs) = true ->
        returned (generate_sticker_labels_with lib env (default_index df)
                    df cfg)
        = Some (document_of env cfg fs, find_columns (columns df)))
    /\ (returned (generate_sticker_labels_with lib env (default_index df)
                    df cfg) <> None ->
        first_rejected lib env fs = None
        /\ builds lib (document_of env cfg fs) = true)
    /\ (returned (generate_sticker_labels_with lib env (default_index df)
                    df cfg) = None ->
        exists e,
          last (displayed (generate_sticker_labels_with lib env
                             (default_index df) df cfg))
          = Some (ErrorPDF e)).
Proof.
  intros Hwf Hmiss.
  destruct (generate_with_run lib env df cfg Hwf Hmiss) as (fs & Hfs & ->).
  exists fs. split; [exact Hfs|]. cbn [returned displayed].
  destruct (first_rejected lib env fs) as [text|].
  - split; [discriminate|]. split; [congruence|]. intros _.
    exists (ValueError text). rewrite app_comm_cons. apply last_snoc.
  - destruct (builds lib (document_of env cfg fs)).
    + split; [reflexivity|]. split; [auto|discriminate].
    + split; [discriminate|]. split; [congruence|]. intros _.
      exists LayoutError. rewrite app_comm_cons. apply last_snoc.
Qed.


Lemma sample_fields (fs : list Fields) :
  Forall2 (fields_of_row (find_columns (columns sample_table))
             (columns sample_table)) (rows sample_table) fs ->
  fs = [mkFields "Door" "P-1" "Hinge" "4" "L1_A_03_B" "L1_A_03_B";
        mkFields "Door" "P-2" "nan" "" "" ""].
Proof.
  intros H. unfold sample_table in H. cbn [rows] in H.
  inversion H as [|r1 f1 rest1 fs1 H1 Hrest1]; subst.
  inversion Hrest1 as [|r2 f2 rest2 fs2 H2 Hrest2]; subst.
  inversion Hrest2; subst.
  f_equal; [|f_equal].
  - eapply fields_of_row_unique; [exact H1|].
    intros log. vm_compute. reflexivity.
  - eapply fields_of_row_unique; [exact H2|].
    intros log. vm_compute. reflexivity.
Qed.

(** * The claims *)

(** C1 (fails on the code): the line-location keyword test is the last loop
    of [find_column], which every field goes through.  On a table without
    an assembly column but with a column "Line Location", no alias of the
    assembly field matches exactly or as a substring, and yet the assembly
    field resolves to "Line Location": the field is not absent, and the
    check of the required columns passes. *)
Lemma keyword_test_resolves_assembly :
  let cols := ["Part No"; "Description"; "Line Location"] in
  let d := normalized_df_columns cols in
  find_exact d (map normalize_column_name ASSLY_names) = None
  /\ find_partial d (map normalize_column_name ASSLY_names) = None
  /\ find_column cols ASSLY_names = Some "Line Location"
  /\ find_columns cols !! "ASSLY" = Some "Line Location"
  /\ missing_required (find_columns cols) = [].
Proof. vm_compute. repeat split; reflexivity. Qed.

(** C2: [parse_line_location] returns exactly four segments for every
    string: the segments between underscores, cut after the fourth and
    filled up with empty strings. *)
Theorem parse_line_location_four_segments (L : string) :
  length (parse_line_location L) = 4
  /\ parse_line_location L
     = firstn 4 (PyStr.split_underscore L ++ [""; ""; ""; ""])
  /\ parse_line_location "A_B" = ["A"; "B"; ""; ""]
  /\ parse_line_location "A_B_C_D_E" = ["A"; "B"; "C"; "D"]
  /\ parse_line_location "" = [""; ""; ""; ""].
Proof.
  assert (parse_line_location L
          = firstn 4 (PyStr.split_underscore L ++ [""; ""; ""; ""])) as Heq.
  { unfold parse_line_location.
    destruct L as [|c r]; [reflexivity|].
    cbv beta iota delta [PyStr.truthy negb].
    destruct (PyStr.split_underscore (String c r))
      as [|s1 [|s2 [|s3 [|s4 rest]]]]; reflexivity. }
  split; [|split; [exact Heq|repeat split; reflexivity]].
  rewrite Heq, length_firstn, length_app. cbn [length]. lia.
Qed.

(** C3: a required field is resolved when [find_column] returns a
    non-empty label for its aliases.  When a required field is not
    resolved, the run returns nothing, displays the list of the missing
    required fields and nothing else (no record was processed), and that
    list holds exactly the required fields that are not resolved. *)
Theorem missing_required_column_aborts
    (env : Env) (df : DataFrame) (cfg : Layout) :
  (exists key, In key required_columns
               /\ find_columns (columns df) !! key = None) ->
  generate_sticker_labels env df cfg
  = mkOutcome None
      [ErrorMissingRequired (missing_required (find_columns (columns df)))]
  /\ (forall key,
        In key (missing_required (find_columns (columns df)))
        <-> In key required_columns
            /\ find_columns (columns df) !! key = None)
  /\ find_columns (columns df) !! "ASSLY" = resolve (columns df) ASSLY_names
  /\ find_columns (columns df) !! "part_no"
     = resolve (columns df) part_no_names
  /\ find_columns (columns df) !! "description"
     = resolve (columns df) description_names.
Proof.
  intros (key & Hreq & Hnone).
  split; [|split; [apply missing_required_In|]].
  - assert (In key (missing_required (find_columns (columns df)))) as Hin
      by (apply missing_required_In; auto).
    unfold generate_sticker_labels, generate_body.
    destruct (missing_required (find_columns (columns df))) as [|m ms];
      [destruct Hin|reflexivity].
  - rewrite !find_columns_lookup. repeat split; reflexivity.
Qed.

Lemma missing_required_column_aborts_witness :
  generate_sticker_labels sample_env table_without_assembly default_layout
  = mkOutcome None [ErrorMissingRequired ["ASSLY"; "description"]].
Proof.
  destruct (missing_required_column_aborts
              sample_env table_without_assembly default_layout)
    as [Hrun _].
  - exists "ASSLY". split; [simpl; auto|vm_compute; reflexivity].
  - rewrite Hrun. vm_compute. reflexivity.
Defined.

(** C4, as stated, fails: with two headers that each equal an alias, the
    column of the earlier alias is picked, not any header that equals an
    alias. *)
Lemma exact_match_picks_one_column :
  ~ (forall (cols A : list string) (H a : string),
       In H cols -> In a A ->
       normalize_column_name H = normalize_column_name a ->
       find_column cols A = Some H).
Proof.
  intros C.
  specialize (C ["Item"; "Part No"] ["Part No"; "Item"] "Item" "Item").
  assert (find_column ["Item"; "Part No"] ["Part No"; "Item"]
          = Some "Part No") as E by (vm_compute; reflexivity).
  rewrite E in C.
  assert (Some "Part No" = Some "Item") as Habs
    by (apply C; simpl; auto).
  discriminate Habs.
Qed.

(** C4, amended: when some header equals some alias after normalization,
    [find_column] returns a header that equals an alias after
    normalization, whatever the substring and keyword tests would find: the
    last header that has the normalized form of the first alias with an
    exact match.  It is [H] when no other header equals an alias. *)
Theorem find_column_exact_priority (cols A : list string) (H a : string) :
  In H cols -> In a A ->
  normalize_column_name H = normalize_column_name a ->
  exists H' a' A1 A2 cols1 cols2,
    find_column cols A = Some H'
    /\ normalize_column_name H' = normalize_column_name a'
    /\ A = A1 ++ a' :: A2
    /\ (forall x c, In x A1 -> In c cols ->
                    normalize_column_name c <> normalize_column_name x)
    /\ cols = cols1 ++ H' :: cols2
    /\ (forall c, In c cols2 ->
                  normalize_column_name c <> normalize_column_name a')
    /\ ((forall c x, In c cols -> In x A ->
                     normalize_column_name c = normalize_column_name x ->
                     c = H) -> H' = H).
Proof.
  intros HH Ha Hnorm.
  destruct (find_exact (normalized_df_columns cols)
              (map normalize_column_name A)) as [H'|] eqn:Ee.
  - pose proof Ee as Hex.
    apply find_exact_Some in Hex as (A1 & a' & A2 & HA & Hget & Hbefore).
    rewrite normalized_get in Hget.
    destruct (last_with_norm_Some _ _ _ Hget) as (c1 & c2 & Hc & Hn & Hafter).
    exists H', a', A1, A2, c1, c2.
    split; [unfold find_column; now rewrite Ee|].
    split; [exact Hn|]. split; [exact HA|].
    split.
    { intros x c Hx Hc'. specialize (Hbefore x Hx).
      rewrite normalized_get in Hbefore.
      now apply (last_with_norm_None _ _ Hbefore). }
    split; [exact Hc|]. split; [exact Hafter|].
    intros Huniq. apply (Huniq H' a').
    + rewrite Hc. apply in_or_app. right. now left.
    + rewrite HA. apply in_or_app. right. now left.
    + exact Hn.
  - exfalso.
    pose proof (find_exact_None _ _ Ee a Ha) as Hnone.
    rewrite normalized_get in Hnone.
    now apply (last_with_norm_None _ _ Hnone H HH).
Qed.

Lemma find_column_exact_priority_witness :
  exists H', find_column ["Line Type"; "TYPE"; "Type."] Type_names = Some H'
             /\ normalize_column_name H' = "type".
Proof.
  destruct (find_column_exact_priority
              ["Line Type"; "TYPE"; "Type."] Type_names "TYPE" "tyPe")
    as (H' & a' & A1 & A2 & c1 & c2 & Hfind & Hn & HA & Hbefore & _).
  - simpl; auto.
  - simpl; auto.
  - reflexivity.
  - exists H'. split; [exact Hfind|].
    rewrite Hn.
    assert (In a' Type_names) as Hin
      by (rewrite HA; apply in_or_app; right; now left).
    simpl in Hin.
    destruct Hin as [<-|[<-|[<-|[<-|[<-|[]]]]]]; try reflexivity.
    exfalso. destruct A1 as [|x A1].
    + simpl in HA. inversion HA.
    + apply (Hbefore x "TYPE").
      * now left.
      * simpl; auto.
      * inversion HA. reflexivity.
Defined.

(** C5, as stated, fails: a table whose required columns are resolved can
    hold a text that ReportLab does not accept in a paragraph; the run then
    stops and returns no document. *)
Lemma markup_text_aborts_run :
  well_formed markup_table
  /\ missing_required (find_columns (columns markup_table)) = []
  /\ returned (generate_sticker_labels_with sample_libraries sample_env
                 (default_index markup_table) markup_table default_layout)
     = None.
Proof.
  split; [compute_done|]. split; vm_compute; reflexivity.
Qed.

(** C5, amended: on a well-formed table of N records under the default
    index whose required columns are all resolved, the records have N
    stickers, one per record and in the order of the records, each of
    three tables.  When ReportLab accepts every paragraph text of every
    record and builds the story, the run returns the document whose story
    is these N stickers, consecutive stickers separated by one page break
    and nothing after the last.  In every other case the run returns no
    document at all and ends with the report of the exception. *)
Theorem one_sticker_per_record_or_abort
    (lib : Libraries) (env : Env) (df : DataFrame) (cfg : Layout) :
  well_formed df ->
  missing_required (find_columns (columns df)) = [] ->
  exists fs pages,
    Forall2 (fields_of_row (find_columns (columns df)) (columns df))
            (rows df) fs
    /\ pages = map (page_of_fields env cfg) fs
    /\ length pages = length (rows df)
    /\ Forall2 (sticker_page env cfg (find_columns (columns df)) (columns df))
               (rows df) pages
    /\ Forall three_tables pages
    /\ count_page_breaks (join_pages pages) = pred (length (rows df))
    /\ (forall fl, last (join_pages pages) = Some fl ->
                   is_page_break fl = false)
    /\ (Forall (fun f => record_accepted lib env f = true) fs ->
        builds lib (build_document (join_pages pages)) = true ->
        exists doc,
          returned (generate_sticker_labels_with lib env (default_index df)
                      df cfg)
          = Some (doc, find_columns (columns df))
          /\ story doc = join_pages pages)
    /\ (returned (generate_sticker_labels_with lib env (default_index df)
                    df cfg) <> None ->
        Forall (fun f => record_accepted lib env f = true) fs
        /\ builds lib (build_document (join_pages pages)) = true)
    /\ (returned (generate_sticker_labels_with lib env (default_index df)
                    df cfg) = None ->
        exists e,
          last (displayed (generate_sticker_labels_with lib env
                             (default_index df) df cfg))
          = Some (ErrorPDF e)).
Proof.
  intros Hwf Hmiss.
  destruct (generate_with_outcome lib env df cfg Hwf Hmiss)
    as (fs & Hfs & Hsome & Hnone & Hlast).
  pose proof (sticker_pages_of_fields env cfg _ _ _ _ Hfs) as Hpages.
  assert (Forall three_tables (map (page_of_fields env cfg) fs)) as Hthree.
  { clear -Hpages. induction Hpages; constructor;
      eauto using sticker_page_three_tables. }
  assert (length (map (page_of_fields env cfg) fs) = length (rows df))
    as Hlen by (symmetry; eapply Forall2_length; eauto).
  exists fs, (map (page_of_fields env cfg) fs).
  split; [exact Hfs|]. split; [reflexivity|]. split; [exact Hlen|].
  split; [exact Hpages|]. split; [exact Hthree|].
  split; [rewrite <- Hlen; now apply count_page_breaks_join|].
  split; [intros fl; now apply last_join_pages|].
  split; [|split; [|exact Hlast]].
  - intros Hacc Hbuilds. apply first_rejected_None in Hacc.
    exists (document_of env cfg fs). split; [now apply Hsome|reflexivity].
  - intros Hret. destruct (Hnone Hret) as [Hacc Hbuilds].
    split; [now apply first_rejected_None|exact Hbuilds].
Qed.

Lemma one_sticker_per_record_or_abort_witness :
  exists doc pages,
    returned (generate_sticker_labels_with sample_libraries sample_env
                (default_index sample_table) sample_table default_layout)
    = Some (doc, find_columns (columns sample_table))
    /\ story doc = join_pages pages
    /\ length pages = 2.
Proof.
  destruct (one_sticker_per_record_or_abort sample_libraries sample_env
              sample_table default_layout)
    as (fs & pages & Hfs & Hpages & Hlen & _ & _ & _ & _ & Hsome & _).
  - compute_done.
  - vm_compute. reflexivity.
  - apply sample_fields in Hfs. subst fs pages.
    destruct Hsome as (doc & Hret & Hstory).
    + repeat constructor.
    + vm_compute. reflexivity.
    + exists doc. eexists. split; [exact Hret|]. split; [exact Hstory|].
      exact Hlen.
Defined.

(** C6: the payload is the newline-separated list of the labelled lines
    for assembly, part number and description, then for quantity, type and
    the unsplit line location when they are not empty, then for the date. *)
Theorem qr_data_labeled_lines (today : string) (f : Fields) :
  qr_data today f = String.concat PyStr.nl (payload_lines today f).
Proof.
  unfold qr_data, payload_lines, optional_line, labeled.
  destruct (PyStr.truthy (Part_per_veh f)),
    (PyStr.truthy (Type_ f)), (PyStr.truthy (line_location_raw f));
    cbn [List.app String.concat];
    rewrite !append_assoc; reflexivity.
Qed.




(** C8: each column of the location table is as wide as the content width
    times the fraction of the layout, whatever the five fractions are;
    every sticker carries these widths, and a run with five fractions of
    one half returns its document.  The content width is 9.8 cm, and the
    default fractions give 2.94, 1.96, 2.45, 1.47 and 0.98 cm. *)
Theorem location_column_widths (cfg : Layout) :
  col_widths_bottom cfg
  = map (PrimFloat.mul content_width)
        [line_loc_header_width cfg; line_loc_box1_width cfg;
         line_loc_box2_width cfg; line_loc_box3_width cfg;
         line_loc_box4_width cfg]
  /\ (forall today f c,
        exists top middle data,
          sticker_tables today cfg f c
          = [top; middle;
             Table data (col_widths_bottom cfg) [location_row_height]
                   bottom_style])
  /\ content_width = (9.8 * cm)%float
  /\ col_widths_bottom (mkLayout 0.3 0.2 0.25 0.15 0.1)
     = [(2.94 * cm)%float; (1.96 * cm)%float; (2.45 * cm)%float;
        (1.47 * cm)%float; (0.98 * cm)%float]
  /\ document_shape
       (generate_sticker_labels sample_env sample_table
          (mkLayout 0.5 0.5 0.5 0.5 0.5)) <> None.
Proof.
  split; [reflexivity|]. split.
  - intros today f c. unfold sticker_tables. eauto.
  - repeat split; vm_compute; (reflexivity || discriminate).
Qed.

(** C9, as stated, fails: the date cell holds the date of the run, so two
    runs on the same table and layout on different days differ in text. *)
Lemma date_cell_differs_between_days :
  qr_png sample_env = qr_png next_day_env
  /\ document_texts
       (generate_sticker_labels sample_env sample_table default_layout)
     <> document_texts
          (generate_sticker_labels next_day_env sample_table default_layout).
Proof.
  split; [reflexivity|]. vm_compute. discriminate.
Qed.

(** C9, amended: two runs on the same well-formed table and layout give
    documents with the same number of pages and the same regions (rows,
    columns, sizes and styles), whatever the clock and the QR library do;
    when both runs read the same date, and the QR library fails on the same
    payloads in both, every cell has the same text. *)
Theorem reruns_agree (env1 env2 : Env) (df : DataFrame) (cfg : Layout) :
  well_formed df ->
  document_shape (generate_sticker_labels env1 df cfg)
  = document_shape (generate_sticker_labels env2 df cfg)
  /\ (today_date env1 = today_date env2 ->
      (forall data, qr_png env1 data = None <-> qr_png env2 data = None) ->
      document_texts (generate_sticker_labels env1 df cfg)
      = document_texts (generate_sticker_labels env2 df cfg)).
Proof.
  intros Hwf.
  destruct (missing_required (find_columns (columns df))) as [|m ms] eqn:Hm.
  - destruct (generate_story env1 df cfg Hwf Hm)
      as (pages1 & evs1 & Hp1 & _ & Hrun1).
    destruct (generate_story env2 df cfg Hwf Hm)
      as (pages2 & evs2 & Hp2 & _ & Hrun2).
    rewrite Hrun1, Hrun2. unfold document_shape, document_texts.
    cbn [returned story build_document]. split.
    + f_equal. apply map_join_pages.
      eapply sticker_pages_related; [|exact Hp1|exact Hp2].
      intros row p1 p2 (f1 & _ & ->) (f2 & _ & ->).
      apply sticker_tables_shape.
    + intros Hdate Hqr. f_equal. apply map_join_pages.
      eapply sticker_pages_related; [|exact Hp1|exact Hp2].
      intros row p1 p2 (f1 & Hf1 & ->) (f2 & Hf2 & ->).
      rewrite <- (fields_of_row_unique _ _ _ _ _ Hf1 Hf2), <- Hdate.
      apply sticker_tables_texts.
      specialize (Hqr (qr_data (today_date env1) f1)).
      destruct (qr_png env1 (qr_data (today_date env1) f1)) as [png1|],
        (qr_png env2 (qr_data (today_date env1) f1)) as [png2|];
        try reflexivity.
      * destruct Hqr as [_ Hqr]. specialize (Hqr eq_refl). discriminate.
      * destruct Hqr as [Hqr _]. specialize (Hqr eq_refl). discriminate.
  - assert (missing_required (find_columns (columns df)) <> []) as Hne
      by (rewrite Hm; discriminate).
    rewrite !(generate_missing _ df cfg Hne). split; reflexivity.
Qed.

Lemma reruns_agree_witness :
  document_shape
    (generate_sticker_labels sample_env sample_table default_layout)
  = document_shape
      (generate_sticker_labels other_library_env sample_table default_layout)
  /\ document_texts
       (generate_sticker_labels sample_env sample_table default_layout)
     = document_texts
         (generate_sticker_labels other_library_env sample_table
            default_layout).
Proof.
  destruct (reruns_agree sample_env other_library_env sample_table
              default_layout) as [Hshape Htexts].
  - compute_done.
  - split; [exact Hshape|]. apply Htexts; [reflexivity|].
    intros data. simpl.
    destruct (PyStr.contains "P-2" data); split;
      (reflexivity || discriminate).
Defined.

(** C10: once the check of the required columns has passed, each of the
    three required fields has a column in the resolved mapping and that
    column is in the table, so for every record the display string of the
    field is [str] of the cell of that column: the branch that gives "N/A"
    is not taken. *)
Theorem required_fields_read_from_cells (df : DataFrame)
    (row : list Cell) (key : string) :
  well_formed df ->
  missing_required (find_columns (columns df)) = [] ->
  In row (rows df) ->
  In key required_columns ->
  exists col v,
    find_columns (columns df) !! key = Some col
    /\ In col (columns df)
    /\ row_lookup (columns df) row col = Some v
    /\ (forall log,
          extract_required (find_columns (columns df)) (columns df) row key
            log
          = (inl (py_str v), log))
    /\ (forall f,
          fields_of_row (find_columns (columns df)) (columns df) row f ->
          required_field key f = Some (py_str v)).
Proof.
  intros [_ Hrect] Hmiss Hrow Hkey.
  destruct (missing_required_nil _ key Hmiss Hkey) as [col Hcol].
  pose proof (find_columns_In _ _ _ Hcol) as Hin.
  rewrite Forall_forall in Hrect.
  assert (length row = length (columns df)) as Hlen
    by apply Hrect, list_elem_of_In, Hrow.
  destruct (row_lookup_Some (columns df) row col Hlen Hin) as [v Hv].
  pose proof (extract_required_cell _ _ _ _ _ _ Hcol Hv) as Hcell.
  exists col, v. repeat split; try assumption.
  intros f Hf.
  destruct (extract_fields_total _ _ row Hlen
              (find_columns_In (columns df))) as (f' & Hf' & Hreq).
  rewrite (fields_of_row_unique _ _ _ _ _ Hf Hf').
  assert (exists s, required_field key f' = Some s) as [s Hs].
  { unfold required_field.
    destruct Hkey as [<-|[<-|[<-|[]]]]; cbn; eauto. }
  rewrite Hs. f_equal.
  specialize (Hreq key s Hs []). rewrite Hcell in Hreq. congruence.
Qed.

Lemma required_fields_read_from_cells_witness :
  exists col v,
    find_columns (columns sample_table) !! "description" = Some col
    /\ row_lookup (columns sample_table)
         [Val "Door"; Val "P-2"; NaN; NaN; NaN] col = Some v
    /\ (forall f,
          fields_of_row (find_columns (columns sample_table))
            (columns sample_table) [Val "Door"; Val "P-2"; NaN; NaN; NaN] f ->
          desc f = py_str v).
Proof.
  destruct (required_fields_read_from_cells sample_table
              [Val "Door"; Val "P-2"; NaN; NaN; NaN] "description")
    as (col & v & Hcol & _ & Hv & _ & Hf).
  - compute_done.
  - vm_compute. reflexivity.
  - simpl. auto.
  - simpl. auto.
  - exists col, v. split; [exact Hcol|]. split; [exact Hv|].
    intros f Hrow. specialize (Hf f Hrow). now inversion Hf.
Defined.

(** * Further properties of the code *)

(** ** Normalization *)

Lemma lower_char_alnum (c : ascii) :
  PyStr.is_ascii_alnum c = true -> is_lower_alnum (PyStr.lower_char c) = true.
Proof.
  destruct c as [[] [] [] [] [] [] [] []]; vm_compute; congruence.
Qed.

Lemma lower_alnum_fixed (c : ascii) :
  is_lower_alnum c = true ->
  PyStr.is_ascii_alnum c = true /\ PyStr.lower_char c = c.
Proof.
  destruct c as [[] [] [] [] [] [] [] []]; vm_compute;
    (split; congruence).
Qed.

Lemma normalize_fixed (s : string) :
  all_chars is_lower_alnum s = true -> normalize_column_name s = s.
Proof.
  unfold normalize_column_name.
  induction s as [|c r IH]; [reflexivity|].
  cbn [all_chars]. intros [Hc Hr]%andb_true_iff.
  destruct (lower_alnum_fixed c Hc) as [Ha Hl].
  cbn [PyStr.strip_non_alnum]. rewrite Ha.
  cbn [PyStr.lower]. now rewrite Hl, (IH Hr).
Qed.

Lemma normalize_all_lower_alnum (s : string) :
  all_chars is_lower_alnum (normalize_column_name s) = true.
Proof.
  unfold normalize_column_name.
  induction s as [|c r IH]; [reflexivity|].
  cbn [PyStr.strip_non_alnum].
  destruct (PyStr.is_ascii_alnum c) eqn:Hc; [|exact IH].
  cbn [PyStr.lower all_chars]. now rewrite (lower_char_alnum c Hc), IH.
Qed.

(** X1: a normalized name holds only digits and lower-case ASCII letters,
    and normalizing it again changes nothing. *)
Theorem normalize_column_name_idempotent (s : string) :
  all_chars is_lower_alnum (normalize_column_name s) = true
  /\ normalize_column_name (normalize_column_name s)
     = normalize_column_name s.
Proof.
  split; [apply normalize_all_lower_alnum|].
  apply normalize_fixed, normalize_all_lower_alnum.
Qed.


Lemma lower_app (s1 s2 : string) :
  PyStr.lower (s1 +:+ s2) = PyStr.lower s1 +:+ PyStr.lower s2.
Proof.
  induction s1 as [|c r IH]; [reflexivity|].
  change (String c r +:+ s2) with (String c (r +:+ s2)).
  cbn [PyStr.lower]. now rewrite IH.
Qed.





(** ** The resolver *)

Lemma prefix_refl (s : string) : String.prefix s s = true.
Proof.
  induction s as [|c r IH]; [reflexivity|].
  cbn [String.prefix]. destruct (ascii_dec c c); [exact IH|contradiction].
Qed.

Lemma contains_refl (s : string) : PyStr.contains s s = true.
Proof. destruct s; cbn [PyStr.contains]; now rewrite prefix_refl. Qed.

Lemma contains_empty (s : string) : PyStr.contains "" s = true.
Proof. destruct s; reflexivity. Qed.

Lemma dict_set_keys (k v : string) (d : PyDict.t) :
  forall k', In k' (map fst (PyDict.set k v d)) <-> k' = k \/ In k' (map fst d).
Proof.
  induction d as [|[k0 v0] d IH]; intros k'; simpl.
  - intuition.
  - destruct (String.eqb_spec k k0) as [->|Hk]; simpl.
    + intuition.
    + rewrite IH. intuition.
Qed.

Lemma dict_set_NoDup (k v : string) (d : PyDict.t) :
  List.NoDup (map fst d) -> List.NoDup (map fst (PyDict.set k v d)).
Proof.
  induction d as [|[k0 v0] d IH]; simpl.
  - intros _. repeat constructor. intros [].
  - intros Hnd. inversion Hnd as [|? ? Hnotin Hnd']; subst.
    destruct (String.eqb_spec k k0) as [->|Hk]; simpl.
    + now constructor.
    + constructor; [|auto].
      rewrite dict_set_keys. intros [->|Hin]; [now apply Hk|now apply Hnotin].
Qed.

Lemma normalized_keys_NoDup (cols : list string) :
  List.NoDup (map fst (normalized_df_columns cols)).
Proof.
  unfold normalized_df_columns.
  assert (forall d, List.NoDup (map fst d) ->
            List.NoDup
              (map fst (fold_left
                          (fun d col =>
                             PyDict.set (normalize_column_name col) col d)
                          cols d))) as H.
  { induction cols as [|c cols IH]; intros d Hd; simpl; [exact Hd|].
    apply IH. now apply dict_set_NoDup. }
  apply H. constructor.
Qed.

Lemma dict_In_get (k v : string) (d : PyDict.t) :
  List.NoDup (map fst d) -> In (k, v) d -> PyDict.get k d = Some v.
Proof.
  induction d as [|[k0 v0] d IH]; simpl; [intros _ []|].
  intros Hnd Hin. inversion Hnd as [|? ? Hnotin Hnd']; subst.
  destruct Hin as [[= -> ->]|Hin].
  - now rewrite String.eqb_refl.
  - destruct (String.eqb_spec k k0) as [->|Hk]; [|auto].
    exfalso. apply Hnotin. now apply (in_map fst) in Hin.
Qed.

(** The items of the dictionary are the headers that no later header
    shadows, under their normalized forms. *)
Lemma normalized_item_last (cols : list string) (k v : string) :
  In (k, v) (normalized_df_columns cols) -> last_with_norm k cols = Some v.
Proof.
  intros Hin. rewrite <- normalized_get.
  apply dict_In_get; [apply normalized_keys_NoDup|exact Hin].
Qed.

(** Every header has its normalized form among the keys. *)
Lemma normalized_key_of_header (cols : list string) (c : string) :
  In c cols ->
  exists v, In (normalize_column_name c, v) (normalized_df_columns cols)
            /\ normalize_column_name v = normalize_column_name c.
Proof.
  intros Hin.
  destruct (last_with_norm_exists _ cols c Hin eq_refl) as [v Hv].
  exists v. rewrite <- normalized_get in Hv. apply dict_get_In in Hv.
  split; [exact Hv|]. apply normalized_items in Hv. symmetry. tauto.
Qed.

Lemma find_partial_Some (d : PyDict.t) (A : list string) (h : string) :
  find_partial d (map normalize_column_name A) = Some h ->
  exists a k, In a A /\ In (k, h) d
              /\ partial_hit (normalize_column_name a) (k, h) = true.
Proof.
  induction A as [|a A IH]; simpl; [discriminate|].
  destruct (List.find (partial_hit (normalize_column_name a)) d)
    as [[k v]|] eqn:E.
  - intros [= <-]. apply find_some in E as [Hin Hhit].
    exists a, k. auto.
  - intros H. destruct (IH H) as (a' & k & Ha & Hin & Hhit).
    exists a', k. auto.
Qed.

Lemma find_partial_None (d : PyDict.t) (A : list string) :
  find_partial d (map normalize_column_name A) = None ->
  forall a item, In a A -> In item d ->
                 partial_hit (normalize_column_name a) item = false.
Proof.
  induction A as [|a A IH]; simpl; [intros _ ? ? []|].
  destruct (List.find (partial_hit (normalize_column_name a)) d) eqn:E;
    [discriminate|].
  intros H x item [<-|Hx] Hitem; [|now apply IH].
  now apply (find_none _ _ E).
Qed.

Lemma find_partial_complete (d : PyDict.t) (A : list string)
    (a : string) (item : string * string) :
  In a A -> In item d ->
  partial_hit (normalize_column_name a) item = true ->
  exists h, find_partial d (map normalize_column_name A) = Some h.
Proof.
  intros Ha Hitem Hhit.
  destruct (find_partial d (map normalize_column_name A)) eqn:E; [eauto|].
  rewrite (find_partial_None d A E a item Ha Hitem) in Hhit. discriminate.
Qed.

Lemma exact_is_related (a c : string) :
  normalize_column_name c = normalize_column_name a ->
  alias_related a c = true.
Proof.
  intros H. unfold alias_related, partial_hit. cbn [fst].
  now rewrite H, contains_refl.
Qed.

(** Where the result of [find_column] comes from. *)
Lemma find_column_origin (cols A : list string) (h : string) :
  find_column cols A = Some h ->
  In (normalize_column_name h, h) (normalized_df_columns cols)
  /\ ((exists a, In a A /\ alias_related a h = true)
      \/ (has_location_keywords h = true
          /\ forall a c, In a A -> In c cols -> alias_related a c = false)).
Proof.
  unfold find_column.
  destruct (find_exact _ _) as [e|] eqn:Ee.
  - intros [= <-]. apply find_exact_Some in Ee as (A1 & a & A2 & -> & Hget & _).
    apply dict_get_In in Hget. pose proof (normalized_items _ _ _ Hget) as [_ Hk].
    split; [now rewrite <- Hk|]. left. exists a.
    split; [apply in_or_app; right; now left|].
    now apply exact_is_related.
  - destruct (find_partial _ _) as [p|] eqn:Ep.
    + intros [= <-].
      apply find_partial_Some in Ep as (a & k & Ha & Hin & Hhit).
      pose proof (normalized_items _ _ _ Hin) as [_ ->].
      split; [exact Hin|]. left. exists a. auto.
    + unfold find_keyword.
      destruct (List.find line_location_hit _) as [[k v]|] eqn:Ek;
        [|discriminate].
      intros [= <-]. apply find_some in Ek as [Hin Hhit].
      pose proof (normalized_items _ _ _ Hin) as [_ ->].
      split; [exact Hin|]. right. split; [exact Hhit|].
      intros a c Ha Hc.
      destruct (normalized_key_of_header cols c Hc) as (v' & Hv' & Hn).
      pose proof (find_partial_None _ _ Ep a _ Ha Hv') as Hnone.
      unfold alias_related. unfold partial_hit in *. cbn [fst] in *.
      exact Hnone.
Qed.

(** X3: a column returned by [find_column] is a header of the table that
    contains, or is contained in, an alias after normalization; failing
    that for every header and alias, it is a header with the line-location
    keywords. *)
Theorem find_column_sound (cols A : list string) (h : string) :
  find_column cols A = Some h ->
  In h cols
  /\ ((exists a, In a A /\ alias_related a h = true)
      \/ (has_location_keywords h = true
          /\ forall a c, In a A -> In c cols -> alias_related a c = false)).
Proof.
  intros H. split; [now apply find_column_In in H|].
  now apply find_column_origin in H.
Qed.

Lemma find_column_sound_witness :
  In "Bin Qty (pcs)" ["Part No"; "Bin Qty (pcs)"]
  /\ ((exists a, In a Part_per_veh_names
                 /\ alias_related a "Bin Qty (pcs)" = true)
      \/ (has_location_keywords "Bin Qty (pcs)" = true
          /\ forall a c, In a Part_per_veh_names ->
                         In c ["Part No"; "Bin Qty (pcs)"] ->
                         alias_related a c = false)).
Proof.
  apply (find_column_sound ["Part No"; "Bin Qty (pcs)"] Part_per_veh_names).
  vm_compute. reflexivity.
Defined.

(** When [find_column] finds nothing. *)
Lemma find_column_None_inv (cols A : list string) :
  find_column cols A = None <->
  (forall a c, In a A -> In c cols -> alias_related a c = false)
  /\ (forall c, In c cols -> has_location_keywords c = false).
Proof.
  unfold find_column. split.
  - destruct (find_exact _ _) eqn:Ee; [discriminate|].
    destruct (find_partial _ _) eqn:Ep; [discriminate|].
    unfold find_keyword.
    destruct (List.find line_location_hit _) eqn:Ek; [discriminate|].
    intros _. split.
    + intros a c Ha Hc.
      destruct (normalized_key_of_header cols c Hc) as (v & Hv & _).
      exact (find_partial_None _ _ Ep a _ Ha Hv).
    + intros c Hc.
      destruct (normalized_key_of_header cols c Hc) as (v & Hv & _).
      exact (find_none _ _ Ek _ Hv).
  - intros [Hrel Hkey].
    destruct (find_exact _ _) as [e|] eqn:Ee.
    { exfalso. apply find_exact_Some in Ee as (A1 & a & A2 & -> & Hget & _).
      apply dict_get_In, normalized_items in Hget as [Hin Hk].
      assert (alias_related a e = true) as Hr
        by (apply exact_is_related; congruence).
      rewrite Hrel in Hr; [discriminate| |exact Hin].
      apply in_or_app. right. now left. }
    destruct (find_partial _ _) as [p|] eqn:Ep.
    { exfalso. apply find_partial_Some in Ep as (a & k & Ha & Hin & Hhit).
      pose proof (normalized_items _ _ _ Hin) as [Hp ->].
      unfold alias_related in Hrel. rewrite (Hrel a p Ha Hp) in Hhit.
      discriminate. }
    unfold find_keyword.
    destruct (List.find line_location_hit _) as [[k v]|] eqn:Ek;
      [|reflexivity].
    exfalso. apply find_some in Ek as [Hin Hhit].
    pose proof (normalized_items _ _ _ Hin) as [Hv ->].
    unfold has_location_keywords in Hkey. rewrite (Hkey v Hv) in Hhit.
    discriminate.
Qed.

(** X4: [find_column] returns [None] exactly when no header contains, or
    is contained in, an alias after normalization and no header has the
    line-location keywords. *)
Theorem find_column_None_iff (cols A : list string) :
  find_column cols A = None <->
  (forall a c, In a A -> In c cols -> alias_related a c = false)
  /\ (forall c, In c cols -> has_location_keywords c = false).
Proof. apply find_column_None_inv. Qed.

(** X5: of several headers with the same normalized form only the last can
    be returned: no header after the column found normalizes like it. *)
Theorem find_column_last_duplicate (cols A : list string) (h : string) :
  find_column cols A = Some h ->
  exists cols1 cols2,
    cols = cols1 ++ h :: cols2
    /\ forall c, In c cols2 ->
                 normalize_column_name c <> normalize_column_name h.
Proof.
  intros H. apply find_column_origin in H as [Hin _].
  apply normalized_item_last in Hin.
  destruct (last_with_norm_Some _ _ _ Hin) as (c1 & c2 & Hc & _ & Hafter).
  exists c1, c2. auto.
Qed.

Lemma find_column_last_duplicate_witness :
  exists cols1 cols2,
    ["part-no"; "Qty"; "PART NO"] = cols1 ++ "PART NO" :: cols2
    /\ forall c, In c cols2 ->
                 normalize_column_name c <> normalize_column_name "PART NO".
Proof.
  apply (find_column_last_duplicate ["part-no"; "Qty"; "PART NO"]
           part_no_names).
  vm_compute. reflexivity.
Defined.

(** X6: a header without any ASCII letter or digit normalizes to the empty
    string, which is contained in every alias: with such a header in the
    table, [find_column] finds a column for any non-empty list of
    aliases. *)
Theorem find_column_blank_header (cols A : list string) (c a : string) :
  In c cols -> normalize_column_name c = "" -> In a A ->
  exists h, find_column cols A = Some h.
Proof.
  intros Hc Hnorm Ha.
  destruct (find_column cols A) as [h|] eqn:E; [eauto|].
  apply find_column_None_inv in E as [Hrel _].
  specialize (Hrel a c Ha Hc).
  unfold alias_related, partial_hit in Hrel. cbn [fst] in Hrel.
  rewrite Hnorm, contains_empty, orb_true_r in Hrel. discriminate.
Qed.

Lemma find_column_blank_header_witness :
  exists h, find_column ["Weight"; "#"] ASSLY_names = Some h.
Proof.
  apply (find_column_blank_header ["Weight"; "#"] ASSLY_names "#" "assly").
  - simpl. auto.
  - reflexivity.
  - simpl. auto.
Defined.

(** X7: the resolved mapping has entries for fields of the schema only;
    the entry of a field is what [find_column] returns for the aliases of
    that field, a non-empty header of the table. *)
Theorem find_columns_entries (cols : list string) (key col : string) :
  find_columns cols !! key = Some col ->
  In col cols /\ col <> ""
  /\ exists names, In (key, names) column_mappings
                   /\ find_column cols names = Some col.
Proof.
  intros H. split; [now apply find_columns_In in H|].
  rewrite find_columns_lookup in H.
  destruct (List.find _ column_mappings) as [[k names]|] eqn:E;
    [|discriminate].
  apply find_some in E as [Hin Hk]. apply String.eqb_eq in Hk.
  cbn [fst] in Hk. subst k.
  unfold resolve in H. cbn [snd] in H.
  destruct (find_column cols names) as [h|] eqn:Ef; [|discriminate].
  destruct h as [|ch h']; [discriminate|]. cbn in H.
  injection H as <-. split; [discriminate|]. exists names. auto.
Qed.

Lemma find_columns_entries_witness :
  In "Qty / Veh" (columns sample_table) /\ "Qty / Veh" <> ""
  /\ exists names, In ("Part_per_veh", names) column_mappings
                   /\ find_column (columns sample_table) names
                      = Some "Qty / Veh".
Proof.
  apply (find_columns_entries (columns sample_table) "Part_per_veh").
  vm_compute. reflexivity.
Defined.

(** ** Splitting and joining *)

Lemma split_underscore_py_split (s : string) :
  PyStr.split_underscore s = py_split "_" s.
Proof.
  induction s as [|c r IH]; [reflexivity|].
  cbn [PyStr.split_underscore py_split]. now rewrite IH.
Qed.

Lemma py_split_nonempty (sep : ascii) (s : string) : py_split sep s <> [].
Proof.
  induction s as [|c r IH]; cbn [py_split]; [discriminate|].
  destruct (Ascii.eqb c sep); [discriminate|].
  destruct (py_split sep r); [contradiction|discriminate].
Qed.

(** The first segment stops before the first separator. *)
Lemma py_split_first (sep : ascii) (s : string) :
  exists stem rest,
    py_split sep s = stem :: rest
    /\ has_char sep stem = false
    /\ (rest = [] /\ s = stem
        \/ exists tail, rest = py_split sep tail
                        /\ s = stem +:+ String sep tail).
Proof.
  induction s as [|c r IH].
  - exists "", []. cbn. auto.
  - cbn [py_split]. destruct (Ascii.eqb_spec c sep) as [->|Hc].
    + exists "", (py_split sep r). split; [reflexivity|].
      split; [reflexivity|]. right. exists r. auto.
    + destruct IH as (stem & rest & -> & Hno & Hs).
      exists (String c stem), rest. split; [reflexivity|]. split.
      * cbn [has_char]. rewrite Hno.
        destruct (Ascii.eqb_spec c sep); [contradiction|reflexivity].
      * destruct Hs as [[-> ->]|(tail & -> & ->)]; [now left|].
        right. exists tail. auto.
Qed.

Lemma py_split_no_sep (sep : ascii) (s seg : string) :
  In seg (py_split sep s) -> has_char sep seg = false.
Proof.
  revert seg. induction s as [|c r IH]; intros seg.
  - cbn. intros [<-|[]]. reflexivity.
  - cbn [py_split]. destruct (Ascii.eqb_spec c sep) as [->|Hc].
    + intros [<-|Hin]; [reflexivity|auto].
    + pose proof (py_split_nonempty sep r) as Hne.
      destruct (py_split sep r) as [|h t]; [contradiction|].
      intros [<-|Hin].
      * cbn [has_char]. rewrite (IH h) by now left.
        destruct (Ascii.eqb_spec c sep); [contradiction|reflexivity].
      * apply IH. now right.
Qed.

Lemma py_split_whole (sep : ascii) (s : string) :
  has_char sep s = false -> py_split sep s = [s].
Proof.
  induction s as [|c r IH]; [reflexivity|].
  cbn [has_char py_split]. intros [Hc Hr]%orb_false_iff.
  rewrite Hc, (IH Hr). reflexivity.
Qed.

Lemma py_split_app (sep : ascii) (s tail : string) :
  has_char sep s = false ->
  py_split sep (s +:+ String sep tail) = s :: py_split sep tail.
Proof.
  induction s as [|c r IH].
  - intros _. change ("" +:+ String sep tail) with (String sep tail).
    cbn [py_split]. now rewrite Ascii.eqb_refl.
  - cbn [has_char]. intros [Hc Hr]%orb_false_iff.
    change (String c r +:+ String sep tail)
      with (String c (r +:+ String sep tail)).
    cbn [py_split]. rewrite Hc, (IH Hr). reflexivity.
Qed.

(** Splitting what was joined gives the pieces back. *)
Lemma py_split_concat (sep : ascii) (lines : list string) :
  lines <> [] ->
  (forall l, In l lines -> has_char sep l = false) ->
  py_split sep (String.concat (String sep "") lines) = lines.
Proof.
  induction lines as [|l rest IH]; [contradiction|].
  intros _ Hno. destruct rest as [|l' rest'].
  - cbn [String.concat]. apply py_split_whole, Hno. now left.
  - change (String.concat (String sep "") (l :: l' :: rest'))
      with (l +:+ String sep (String.concat (String sep "") (l' :: rest'))).
    rewrite py_split_app by (apply Hno; now left).
    rewrite IH; [reflexivity|discriminate|].
    intros x Hx. apply Hno. now right.
Qed.

Lemma In_firstn {A : Type} (n : nat) (l : list A) (x : A) :
  In x (firstn n l) -> In x l.
Proof.
  intros H. rewrite <- (firstn_skipn n l). apply in_or_app. now left.
Qed.

Lemma parse_line_location_eq (L : string) :
  parse_line_location L
  = firstn 4 (PyStr.split_underscore L ++ [""; ""; ""; ""]).
Proof.
  unfold parse_line_location.
  destruct L as [|c r]; [reflexivity|].
  cbv beta iota delta [PyStr.truthy negb].
  destruct (PyStr.split_underscore (String c r))
    as [|s1 [|s2 [|s3 [|s4 rest]]]]; reflexivity.
Qed.

(** X8: no box of a parsed line location holds an underscore; when the
    location has exactly four segments, joining the boxes with underscores
    gives the location back. *)
Theorem parse_line_location_boxes (L : string) :
  (forall box, In box (parse_line_location L) -> has_char "_" box = false)
  /\ (length (PyStr.split_underscore L) = 4 ->
      String.concat "_" (parse_line_location L) = L).
Proof.
  rewrite parse_line_location_eq. split.
  - intros box Hin. apply In_firstn in Hin.
    apply in_app_or in Hin as [Hin|Hin].
    + rewrite split_underscore_py_split in Hin.
      now apply py_split_no_sep in Hin.
    + simpl in Hin. intuition (subst; reflexivity).
  - intros Hlen. rewrite <- (split_underscore_join L) at 2.
    destruct (PyStr.split_underscore L)
      as [|s1 [|s2 [|s3 [|s4 [|s5 rest]]]]]; try discriminate.
    reflexivity.
Qed.

(** ** File names *)

(** X16: the name offered for download is "sticker_labels_", the part of
    the uploaded name before its first dot, and ".pdf"; that part holds no
    dot, so everything from the first dot on is discarded. *)
Theorem download_filename_stem (name : string) :
  exists stem,
    download_filename name = "sticker_labels_" +:+ stem +:+ ".pdf"
    /\ has_char "." stem = false
    /\ (name = stem \/ exists tail, name = stem +:+ String "." tail).
Proof.
  destruct (py_split_first "." name) as (stem & rest & Hsplit & Hno & Hs).
  exists stem. unfold download_filename. rewrite Hsplit.
  split; [reflexivity|]. split; [exact Hno|].
  destruct Hs as [[_ ->]|(tail & _ & ->)]; [now left|].
  right. now exists tail.
Qed.

Lemma py_endswith_iff (suffix s : string) :
  py_endswith suffix s = true <-> exists p, s = p +:+ suffix.
Proof.
  induction s as [|c r IH].
  - cbn [py_endswith]. rewrite orb_false_r, String.eqb_eq. split.
    + intros ->. now exists "".
    + intros [p Hp]. destruct p; [exact (eq_sym Hp)|discriminate].
  - cbn [py_endswith]. rewrite orb_true_iff, String.eqb_eq, IH. split.
    + intros [->|[p ->]]; [now exists ""|now exists (String c p)].
    + intros [p Hp]. destruct p as [|c' p].
      * left. exact (eq_sym Hp).
      * right. exists p.
        change (String c' p +:+ suffix) with (String c' (p +:+ suffix)) in Hp.
        now injection Hp.
Qed.

Lemma lower_app_inv (s p q : string) :
  PyStr.lower s = p +:+ q ->
  exists s1 s2, s = s1 +:+ s2 /\ PyStr.lower s1 = p /\ PyStr.lower s2 = q.
Proof.
  revert s. induction p as [|c p IH]; intros s H.
  - exists "", s. auto.
  - destruct s as [|c' s]; [discriminate|].
    change (String c p +:+ q) with (String c (p +:+ q)) in H.
    cbn [PyStr.lower] in H. injection H as Hc Hs.
    destruct (IH s Hs) as (s1 & s2 & -> & <- & <-).
    exists (String c' s1), s2. split; [reflexivity|].
    split; [cbn [PyStr.lower]; now rewrite Hc|reflexivity].
Qed.

(** X17: an uploaded file is read as CSV exactly when its name ends in
    ".csv" in any mix of upper and lower case; every other name, with or
    without an extension, goes to the Excel reader. *)
Theorem reads_as_csv_iff (name : string) :
  reads_as_csv name = true
  <-> exists stem ext, name = stem +:+ ext /\ PyStr.lower ext = ".csv".
Proof.
  unfold reads_as_csv. rewrite py_endswith_iff. split.
  - intros [p Hp]. apply lower_app_inv in Hp as (s1 & s2 & -> & _ & Hext).
    eauto.
  - intros (stem & ext & -> & Hext).
    exists (PyStr.lower stem). now rewrite lower_app, Hext.
Qed.

Lemma parse_line_location_boxes_witness :
  String.concat "_" (parse_line_location "L1_A_03_B") = "L1_A_03_B".
Proof.
  apply (proj2 (parse_line_location_boxes "L1_A_03_B")). reflexivity.
Defined.

(** ** The payload *)

Lemma has_char_app (c : ascii) (s1 s2 : string) :
  has_char c (s1 +:+ s2) = has_char c s1 || has_char c s2.
Proof.
  induction s1 as [|c1 r IH]; [reflexivity|].
  change (String c1 r +:+ s2) with (String c1 (r +:+ s2)).
  cbn [has_char]. now rewrite IH, orb_assoc.
Qed.

Lemma qr_data_concat (today : string) (f : Fields) :
  qr_data today f = String.concat PyStr.nl (payload_lines today f).
Proof.
  unfold qr_data, payload_lines, optional_line, labeled.
  destruct (PyStr.truthy (Part_per_veh f)),
    (PyStr.truthy (Type_ f)), (PyStr.truthy (line_location_raw f));
    cbn [List.app String.concat];
    rewrite !append_assoc; reflexivity.
Qed.

Lemma labeled_single_line (label value : string) :
  has_char (ascii_of_N 10) label = false ->
  has_char (ascii_of_N 10) value = false ->
  has_char (ascii_of_N 10) (labeled label value) = false.
Proof.
  intros Hl Hv. unfold labeled. now rewrite !has_char_app, Hl, Hv.
Qed.

Lemma payload_lines_single_line (today : string) (f : Fields) (l : string) :
  single_line f -> has_char (ascii_of_N 10) today = false ->
  In l (payload_lines today f) -> has_char (ascii_of_N 10) l = false.
Proof.
  intros (Ha & Hp & Hd & Hq & Ht & Hl) Htoday.
  unfold payload_lines, optional_line.
  destruct (PyStr.truthy (Part_per_veh f)),
    (PyStr.truthy (Type_ f)), (PyStr.truthy (line_location_raw f));
    cbn [List.app In];
    intuition (subst l; now apply labeled_single_line).
Qed.

Lemma payload_lines_nonempty (today : string) (f : Fields) :
  payload_lines today f <> [].
Proof. discriminate. Qed.

(** X10: when no display string of a record and not the date holds a
    newline, splitting the payload at the newlines gives back its labelled
    lines: a reader of the code recovers each line whole. *)
Theorem qr_data_lines_recovered (today : string) (f : Fields) :
  single_line f -> has_char (ascii_of_N 10) today = false ->
  py_split (ascii_of_N 10) (qr_data today f) = payload_lines today f.
Proof.
  intros Hf Htoday. rewrite qr_data_concat.
  apply (py_split_concat (ascii_of_N 10));
    [apply payload_lines_nonempty|].
  intros l. now apply payload_lines_single_line.
Qed.

Lemma qr_data_lines_recovered_witness :
  py_split (ascii_of_N 10)
    (qr_data "03-11-2026" (mkFields "Door" "P-1" "Hinge" "4" "" "L1_A"))
  = ["ASSLY: Door"; "Part No: P-1"; "Description: Hinge"; "QTY/BIN: 4";
     "Line Location: L1_A"; "Date: 03-11-2026"].
Proof.
  rewrite (qr_data_lines_recovered "03-11-2026"
             (mkFields "Door" "P-1" "Hinge" "4" "" "L1_A")).
  - reflexivity.
  - repeat split.
  - reflexivity.
Defined.

Lemma payload_lines_inj (today today' : string) (f f' : Fields) :
  payload_lines today f = payload_lines today' f' ->
  f = f' /\ today = today'.
Proof.
  destruct f as [a p d q t l], f' as [a' p' d' q' t' l'].
  unfold payload_lines, optional_line, labeled.
  cbn [ASSLY part_no desc Part_per_veh Type_ line_location_raw].
  destruct q as [|cq q], t as [|ct t], l as [|cl l],
    q' as [|cq' q'], t' as [|ct' t'], l' as [|cl' l'];
    cbv [PyStr.truthy List.app String.append];
    intros H; inversion H; subst; split; reflexivity.
Qed.

(** X11: two payloads are equal only if they come from the same six
    display strings and the same date, as long as none of these holds a
    newline: the code identifies the record's fields. *)
Theorem qr_data_injective (today today' : string) (f f' : Fields) :
  single_line f -> single_line f' ->
  has_char (ascii_of_N 10) today = false ->
  has_char (ascii_of_N 10) today' = false ->
  qr_data today f = qr_data today' f' ->
  f = f' /\ today = today'.
Proof.
  intros Hf Hf' Ht Ht' Heq.
  apply payload_lines_inj.
  rewrite !qr_data_concat in Heq.
  apply (f_equal (py_split (ascii_of_N 10))) in Heq.
  rewrite !py_split_concat in Heq;
    auto using payload_lines_nonempty;
    intros l; now apply payload_lines_single_line.
Qed.

Lemma qr_data_injective_witness :
  mkFields "Door" "P-1" "Hinge" "4" "" "L1_A"
  = mkFields "Door" "P-1" "Hinge" "4" "" "L1_A"
  /\ "03-11-2026" = "03-11-2026".
Proof.
  apply (qr_data_injective "03-11-2026" "03-11-2026"
           (mkFields "Door" "P-1" "Hinge" "4" "" "L1_A")
           (mkFields "Door" "P-1" "Hinge" "4" "" "L1_A")).
  - repeat split.
  - repeat split.
  - reflexivity.
  - reflexivity.
  - reflexivity.
Defined.

(** ** The display strings of a record *)

Lemma extract_required_pure (found : gmap string string)
    (cols : list string) (row : list Cell) (key : string) :
  exists r, forall log, extract_required found cols row key log = (r, log).
Proof.
  unfold extract_required, row_get, bind, ret, raise.
  destruct (found !! key) as [col|]; [|eauto].
  destruct (row_lookup cols row col); eauto.
Qed.

Lemma extract_optional_pure (found : gmap string string)
    (cols : list string) (row : list Cell) (key : string) :
  exists r, forall log, extract_optional found cols row key log = (r, log).
Proof.
  unfold extract_optional, row_get, bind, ret, raise.
  destruct (found !! key) as [col|]; [|eauto].
  destruct (row_lookup cols row col) as [v|]; [|eauto].
  destruct (notna v); eauto.
Qed.

(** The six strings of a record are what the six extractions return. *)
Lemma fields_of_row_inv (found : gmap string string) (cols : list string)
    (row : list Cell) (f : Fields) :
  fields_of_row found cols row f ->
  (forall key s, required_field key f = Some s ->
     forall log, extract_required found cols row key log = (inl s, log))
  /\ (forall key s, optional_field key f = Some s ->
        forall log, extract_optional found cols row key log = (inl s, log)).
Proof.
  intros Hf. specialize (Hf []).
  destruct (extract_required_pure found cols row "ASSLY") as [ra Ha].
  destruct (extract_required_pure found cols row "part_no") as [rp Hp].
  destruct (extract_required_pure found cols row "description") as [rd Hd].
  destruct (extract_optional_pure found cols row "Part_per_veh") as [rq Hq].
  destruct (extract_optional_pure found cols row "Type") as [rt Ht].
  destruct (extract_optional_pure found cols row "line_location") as [rl Hl].
  unfold extract_fields, bind, ret in Hf.
  rewrite Ha in Hf. destruct ra as [a|]; [|discriminate].
  rewrite Hp in Hf. destruct rp as [p|]; [|discriminate].
  rewrite Hd in Hf. destruct rd as [d|]; [|discriminate].
  rewrite Hq in Hf. destruct rq as [q|]; [|discriminate].
  rewrite Ht in Hf. destruct rt as [t|]; [|discriminate].
  rewrite Hl in Hf. destruct rl as [l|]; [|discriminate].
  injection Hf as <-. split; intros key s.
  - unfold required_field. cbn [ASSLY part_no desc].
    destruct (String.eqb_spec key "ASSLY") as [->|_]; [now intros [= <-]|].
    destruct (String.eqb_spec key "part_no") as [->|_]; [now intros [= <-]|].
    destruct (String.eqb_spec key "description") as [->|_];
      [now intros [= <-]|discriminate].
  - unfold optional_field. cbn [Part_per_veh Type_ line_location_raw].
    destruct (String.eqb_spec key "Part_per_veh") as [->|_];
      [now intros [= <-]|].
    destruct (String.eqb_spec key "Type") as [->|_]; [now intros [= <-]|].
    destruct (String.eqb_spec key "line_location") as [->|_];
      [now intros [= <-]|discriminate].
Qed.

(** X9: the display string of an optional field is empty when the field
    has no column, and when the cell of the record is a missing value;
    otherwise it is [str] of the cell. *)
Theorem optional_field_display (found : gmap string string)
    (cols : list string) (row : list Cell) (f : Fields) (key : string) :
  fields_of_row found cols row f ->
  In key optional_columns ->
  (found !! key = None -> optional_field key f = Some "")
  /\ (forall col v,
        found !! key = Some col -> row_lookup cols row col = Some v ->
        optional_field key f = Some (if notna v then py_str v else "")).
Proof.
  intros Hf Hkey.
  destruct (fields_of_row_inv _ _ _ _ Hf) as [_ Hopt].
  assert (exists s, optional_field key f = Some s) as [s Hs].
  { unfold optional_field.
    destruct Hkey as [<-|[<-|[<-|[]]]]; cbn; eauto. }
  specialize (Hopt key s Hs []). rewrite Hs.
  unfold extract_optional, row_get, bind, ret in Hopt. split.
  - intros Hnone. rewrite Hnone in Hopt. congruence.
  - intros col v Hcol Hv. rewrite Hcol, Hv in Hopt.
    destruct (notna v); congruence.
Qed.

Lemma optional_field_display_witness :
  (find_columns (columns sample_table) !! "Part_per_veh" = None ->
   optional_field "Part_per_veh" (mkFields "Door" "P-2" "nan" "" "" "")
   = Some "")
  /\ (forall col v,
        find_columns (columns sample_table) !! "Part_per_veh" = Some col ->
        row_lookup (columns sample_table)
          [Val "Door"; Val "P-2"; NaN; NaN; NaN] col = Some v ->
        optional_field "Part_per_veh" (mkFields "Door" "P-2" "nan" "" "" "")
        = Some (if notna v then py_str v else "")).
Proof.
  apply (optional_field_display (find_columns (columns sample_table))
           (columns sample_table) [Val "Door"; Val "P-2"; NaN; NaN; NaN]
           (mkFields "Door" "P-2" "nan" "" "" "") "Part_per_veh").
  - intros log. vm_compute. reflexivity.
  - simpl. auto.
Defined.

(** ** What a run displays *)

Lemma filter_progress_events (env : Env) (total_rows : Z)
    (fs : list Fields) :
  forall index,
    List.filter is_progress
      (concat (imap (fun j => record_events env total_rows (index + j)) fs))
    = map (fun j => Progress (Z.of_nat j + 1) total_rows)
          (seq index (length fs)).
Proof.
  induction fs as [|f fs IH]; intros index; [reflexivity|].
  cbn [imap concat length seq map]. unfold record_events at 1.
  cbn [app List.filter is_progress]. rewrite List.filter_app.
  replace (index + 0) with index by lia. f_equal.
  assert (List.filter is_progress
            (qr_events env (qr_data (today_date env) f)) = []) as ->.
  { unfold qr_events. now destruct (qr_png env _). }
  cbn [app]. rewrite <- (IH (S index)). f_equal. f_equal.
  apply imap_ext. intros j x _. cbn. f_equal. lia.
Qed.

Lemma filter_qr_events (env : Env) (total_rows : Z) (fs : list Fields) :
  forall index,
    length (List.filter is_qr_error
              (concat (imap (fun j => record_events env total_rows
                                        (index + j)) fs)))
    = length (List.filter
                (fun f => match qr_png env (qr_data (today_date env) f) with
                          | Some _ => false
                          | None => true
                          end) fs).
Proof.
  induction fs as [|f fs IH]; intros index; [reflexivity|].
  cbn [imap concat List.filter]. unfold record_events at 1.
  cbn [app List.filter is_qr_error]. rewrite List.filter_app, length_app.
  rewrite (imap_ext _ (fun j => record_events env total_rows (S index + j))
             fs)
    by (intros j x _; cbn; f_equal; lia).
  rewrite IH. unfold qr_events.
  destruct (qr_png env (qr_data (today_date env) f)); reflexivity.
Qed.

Lemma run_tail_no_progress (lib : Libraries) (env : Env) (cfg : Layout)
    (fs : list Fields) :
  List.filter is_progress
    (match first_rejected lib env fs with
     | Some text => [ErrorPDF (ValueError text)]
     | None =>
         if builds lib (document_of env cfg fs) then []
         else [ErrorPDF LayoutError]
     end) = []
  /\ List.filter is_qr_error
       (match first_rejected lib env fs with
        | Some text => [ErrorPDF (ValueError text)]
        | None =>
            if builds lib (document_of env cfg fs) then []
            else [ErrorPDF LayoutError]
        end) = [].
Proof.
  destruct (first_rejected lib env fs); [split; reflexivity|].
  destruct (builds lib _); split; reflexivity.
Qed.

Lemma length_firstn_started (lib : Libraries) (env : Env)
    (fs : list Fields) :
  length (firstn (records_started lib env fs) fs)
  = records_started lib env fs.
Proof.
  rewrite length_firstn. pose proof (records_started_le lib env fs). lia.
Qed.

(** X12: on a well-formed table of N records under the default index
    whose required columns are resolved, the progress bar is set to 1/N,
    2/N, ..., k/N in this order, where k counts the records up to and
    including the first one with a paragraph text that ReportLab does not
    accept: the value is never above one, and it reaches N/N when every
    text of every record is accepted. *)
Theorem progress_follows_records
    (lib : Libraries) (env : Env) (df : DataFrame) (cfg : Layout) :
  well_formed df ->
  missing_required (find_columns (columns df)) = [] ->
  exists fs,
    Forall2 (fields_of_row (find_columns (columns df)) (columns df))
            (rows df) fs
    /\ List.filter is_progress
         (displayed (generate_sticker_labels_with lib env (default_index df)
                       df cfg))
       = map (fun j => Progress (Z.of_nat j + 1)
                         (Z.of_nat (length (rows df))))
             (seq 0 (records_started lib env fs))
    /\ records_started lib env fs <= length (rows df)
    /\ (Forall (fun f => record_accepted lib env f = true) fs ->
        records_started lib env fs = length (rows df)).
Proof.
  intros Hwf Hmiss.
  destruct (generate_with_run lib env df cfg Hwf Hmiss) as (fs & Hfs & ->).
  exists fs. split; [exact Hfs|]. cbn [displayed]. split; [|split].
  - cbn [List.filter is_progress]. rewrite List.filter_app.
    rewrite (proj1 (run_tail_no_progress lib env cfg fs)), app_nil_r.
    rewrite <- (length_firstn_started lib env fs) at 2.
    exact (filter_progress_events env _ _ 0).
  - rewrite (Forall2_length _ _ _ Hfs). apply records_started_le.
  - intros Hacc. rewrite (Forall2_length _ _ _ Hfs).
    now apply records_started_all, first_rejected_None.
Qed.

Lemma progress_follows_records_witness :
  exists fs,
    Forall2 (fields_of_row (find_columns (columns markup_table))
               (columns markup_table)) (rows markup_table) fs
    /\ List.filter is_progress
         (displayed (generate_sticker_labels_with sample_libraries
                       sample_env (default_index markup_table) markup_table
                       default_layout))
       = map (fun j => Progress (Z.of_nat j + 1)
                         (Z.of_nat (length (rows markup_table))))
             (seq 0 (records_started sample_libraries sample_env fs)).
Proof.
  destruct (progress_follows_records sample_libraries sample_env
              markup_table default_layout) as (fs & Hfs & Hprogress & _).
  - compute_done.
  - vm_compute. reflexivity.
  - exists fs. split; [exact Hfs|exact Hprogress].
Defined.

(** X13: on such a table the run reports one QR error for each record
    whose payload the QR library could not encode, among the records up
    to and including the first one with a text that ReportLab does not
    accept (all the records when every text is accepted): the payload of a
    record is encoded before its paragraphs are built. *)
Theorem one_error_per_failed_code
    (lib : Libraries) (env : Env) (df : DataFrame) (cfg : Layout) :
  well_formed df ->
  missing_required (find_columns (columns df)) = [] ->
  exists fs,
    Forall2 (fields_of_row (find_columns (columns df)) (columns df))
            (rows df) fs
    /\ length (List.filter is_qr_error
                 (displayed (generate_sticker_labels_with lib env
                               (default_index df) df cfg)))
       = length (List.filter (qr_fails env)
                   (firstn (records_started lib env fs) fs)).
Proof.
  intros Hwf Hmiss.
  destruct (generate_with_run lib env df cfg Hwf Hmiss) as (fs & Hfs & ->).
  exists fs. split; [exact Hfs|]. cbn [displayed].
  cbn [List.filter is_qr_error]. rewrite List.filter_app.
  rewrite (proj2 (run_tail_no_progress lib env cfg fs)), app_nil_r.
  exact (filter_qr_events env _ _ 0).
Qed.

Lemma one_error_per_failed_code_witness :
  exists fs,
    Forall2 (fields_of_row (find_columns (columns markup_table))
               (columns markup_table)) (rows markup_table) fs
    /\ length (List.filter is_qr_error
                 (displayed (generate_sticker_labels_with sample_libraries
                               sample_env (default_index markup_table)
                               markup_table default_layout)))
       = length (List.filter (qr_fails sample_env)
                   (firstn (records_started sample_libraries sample_env fs)
                           fs)).
Proof.
  apply (one_error_per_failed_code sample_libraries sample_env markup_table
           default_layout).
  - compute_done.
  - vm_compute. reflexivity.
Defined.

(** ** What a run returns *)

(** X14: on a table without records whose required columns are resolved,
    the run returns a document with an empty story: no sticker, no page
    break, and no progress beyond the creation of the bar. *)
Theorem no_record_no_sticker (env : Env) (df : DataFrame) (cfg : Layout) :
  rows df = [] ->
  missing_required (find_columns (columns df)) = [] ->
  generate_sticker_labels env df cfg
  = mkOutcome (Some (build_document [], find_columns (columns df)))
              [ProgressBar 0].
Proof.
  intros Hrows Hmiss.
  unfold generate_sticker_labels, generate_body.
  rewrite Hmiss, Hrows. reflexivity.
Qed.

Lemma no_record_no_sticker_witness :
  generate_sticker_labels sample_env empty_table default_layout
  = mkOutcome (Some (build_document [],
                     find_columns (columns empty_table)))
              [ProgressBar 0].
Proof.
  apply (no_record_no_sticker sample_env empty_table default_layout).
  - reflexivity.
  - vm_compute. reflexivity.
Defined.

(** X15: whenever a run returns a document, on any table, the mapping
    returned with it is the resolved mapping of the table, and it gives
    each of the three required fields a column of the table. *)
Theorem returned_mapping_is_complete
    (env : Env) (df : DataFrame) (cfg : Layout)
    (doc : Document) (mapping : gmap string string) :
  returned (generate_sticker_labels env df cfg) = Some (doc, mapping) ->
  mapping = find_columns (columns df)
  /\ (exists all_elements, doc = build_document all_elements)
  /\ forall key, In key required_columns ->
                 exists col, mapping !! key = Some col /\ In col (columns df).
Proof.
  unfold generate_sticker_labels, generate_body.
  destruct (missing_required (find_columns (columns df))) as [|m ms] eqn:Hm.
  - unfold bind, display, ret.
    destruct (process_rows _ _ _ _ _ _ _ _ _) as [[out|e] log];
      cbn [returned]; [|discriminate].
    intros [= <- <-]. split; [reflexivity|]. split; [eauto|].
    intros key Hkey.
    destruct (missing_required_nil _ key Hm Hkey) as [col Hcol].
    exists col. split; [exact Hcol|]. now apply find_columns_In in Hcol.
  - cbn. discriminate.
Qed.

Lemma returned_mapping_is_complete_witness :
  find_columns (columns empty_table) = find_columns (columns empty_table)
  /\ (exists all_elements, build_document [] = build_document all_elements)
  /\ forall key, In key required_columns ->
                 exists col,
                   find_columns (columns empty_table) !! key = Some col
                   /\ In col (columns empty_table).
Proof.
  apply (returned_mapping_is_complete sample_env empty_table default_layout).
  vm_compute. reflexivity.
Defined.

(** ** The geometry of a sticker *)

(** X18: for every record and every layout, the first two tables of a
    sticker are exactly as wide as the content box, and the seven rows of
    the three tables together are not higher than it; the frame the
    template leaves between its margins is as high as the content box.
    With the default fractions the location table is also exactly as wide
    as the content box. *)
Theorem sticker_fits_content_box
    (today : string) (cfg : Layout) (f : Fields) (c : CellValue) :
  exists top middle bottom,
    sticker_tables today cfg f c = [top; middle; bottom]
    /\ flowable_width top = content_width
    /\ flowable_width middle = content_width
    /\ flowable_width bottom = float_sum (col_widths_bottom cfg)
    /\ float_sum (col_widths_bottom default_layout) = content_width
    /\ PrimFloat.leb
         (float_sum [flowable_height top; flowable_height middle;
                     flowable_height bottom]) CONTENT_BOX_HEIGHT = true
    /\ (STICKER_HEIGHT - topMargin (build_document [])
        - bottomMargin (build_document []))%float = CONTENT_BOX_HEIGHT.
Proof.
  unfold sticker_tables. do 3 eexists. split; [reflexivity|].
  cbn [flowable_width flowable_height firstn skipn nth].
  repeat split; vm_compute; reflexivity.
Qed.

(** ** The order of the columns *)

Lemma NoDup_map_eq {A B : Type} (g : A -> B) (l : list A) (x y : A) :
  List.NoDup (map g l) -> In x l -> In y l -> g x = g y -> x = y.
Proof.
  induction l as [|z l IH]; [intros _ []|].
  cbn [map]. intros Hnd Hx Hy Heq.
  inversion Hnd as [|? ? Hnotin Hnd']; subst.
  destruct Hx as [->|Hx], Hy as [->|Hy]; auto.
  - exfalso. apply Hnotin. rewrite Heq. now apply in_map.
  - exfalso. apply Hnotin. rewrite <- Heq. now apply in_map.
Qed.

Lemma last_with_norm_distinct (k : string) (cols : list string) (h : string) :
  List.NoDup (map normalize_column_name cols) ->
  In h cols -> normalize_column_name h = k ->
  last_with_norm k cols = Some h.
Proof.
  intros Hnd Hin Hk.
  destruct (last_with_norm_exists k cols h Hin Hk) as [h' Hh'].
  rewrite Hh'. f_equal.
  destruct (last_with_norm_Some _ _ _ Hh') as (c1 & c2 & Hc & Hn & _).
  apply (NoDup_map_eq normalize_column_name cols); auto; [|congruence].
  rewrite Hc. apply in_or_app. right. now left.
Qed.

Lemma last_with_norm_perm (k : string) (cols cols' : list string) :
  List.NoDup (map normalize_column_name cols) ->
  Permutation cols cols' ->
  last_with_norm k cols' = last_with_norm k cols.
Proof.
  intros Hnd Hperm.
  assert (List.NoDup (map normalize_column_name cols')) as Hnd'
    by (eapply Permutation_NoDup; [apply Permutation_map, Hperm|exact Hnd]).
  destruct (last_with_norm k cols) as [h|] eqn:E.
  - destruct (last_with_norm_Some _ _ _ E) as (c1 & c2 & Hc & Hn & _).
    apply last_with_norm_distinct; [exact Hnd'| |exact Hn].
    apply (Permutation_in _ Hperm). rewrite Hc.
    apply in_or_app. right. now left.
  - destruct (last_with_norm k cols') as [h'|] eqn:E'; [|reflexivity].
    destruct (last_with_norm_Some _ _ _ E') as (c1 & c2 & Hc & Hn & _).
    exfalso. apply (last_with_norm_None _ _ E h'); [|exact Hn].
    apply (Permutation_in _ (Permutation_sym Hperm)). rewrite Hc.
    apply in_or_app. right. now left.
Qed.

Lemma find_exact_ext (d d' : PyDict.t) (names : list string) :
  (forall k, PyDict.get k d' = PyDict.get k d) ->
  find_exact d' names = find_exact d names.
Proof.
  intros Hget. induction names as [|n names IH]; [reflexivity|].
  cbn [find_exact]. rewrite Hget, IH. reflexivity.
Qed.

(** X19: when the headers of a table have distinct normalized forms and
    one of them equals an alias after normalization, [find_column] returns
    the same column whatever the order of the columns in the table. *)
Theorem find_column_order_independent
    (cols cols' A : list string) (a c : string) :
  List.NoDup (map normalize_column_name cols) ->
  Permutation cols cols' ->
  In a A -> In c cols ->
  normalize_column_name c = normalize_column_name a ->
  find_column cols' A = find_column cols A.
Proof.
  intros Hnd Hperm Ha Hc Hnorm.
  assert (find_exact (normalized_df_columns cols')
            (map normalize_column_name A)
          = find_exact (normalized_df_columns cols)
              (map normalize_column_name A)) as Hsame.
  { apply find_exact_ext. intros k. rewrite !normalized_get.
    now apply last_with_norm_perm. }
  unfold find_column. rewrite Hsame.
  destruct (find_exact (normalized_df_columns cols)
              (map normalize_column_name A)) as [h|] eqn:E; [reflexivity|].
  exfalso. pose proof (find_exact_None _ _ E a Ha) as Hnone.
  rewrite normalized_get in Hnone.
  now apply (last_with_norm_None _ _ Hnone c Hc).
Qed.

Lemma find_column_order_independent_witness :
  find_column ["Description"; "Part No"; "Assy Name"] part_no_names
  = find_column ["Assy Name"; "Part No"; "Description"] part_no_names.
Proof.
  apply (find_column_order_independent
           ["Assy Name"; "Part No"; "Description"]
           ["Description"; "Part No"; "Assy Name"]
           part_no_names "Part No" "Part No").
  - vm_compute. repeat constructor; simpl; intuition discriminate.
  - apply (perm_trans (l' := ["Assy Name"; "Description"; "Part No"])).
    + apply perm_skip, perm_swap.
    + apply (perm_trans (l' := ["Description"; "Assy Name"; "Part No"])).
      * apply perm_swap.
      * apply perm_skip, perm_swap.
  - simpl. auto 10.
  - simpl. auto.
  - reflexivity.
Defined.

(** ** The page of [main] *)

Lemma generate_with_missing (lib : Libraries) (env : Env) (index : list Z)
    (df : DataFrame) (cfg : Layout) :
  missing_required (find_columns (columns df)) <> [] ->
  returned (generate_sticker_labels_with lib env index df cfg) = None.
Proof.
  intros Hne. unfold generate_sticker_labels_with, generate_body_with.
  destruct (missing_required (find_columns (columns df)));
    [contradiction|reflexivity].
Qed.

Lemma fields_of_rows_unique (found : gmap string string)
    (cols : list string) (todo : list (list Cell)) (fs fs' : list Fields) :
  Forall2 (fields_of_row found cols) todo fs ->
  Forall2 (fields_of_row found cols) todo fs' -> fs = fs'.
Proof.
  intros H. revert fs'.
  induction H as [|row f rest fs Hf Hrest IH]; intros fs' H';
    inversion H'; subst; [reflexivity|].
  f_equal; [eapply fields_of_row_unique; eauto|auto].
Qed.

(** X20: on a well-formed table under the default index, a run returns a
    document exactly when [main] shows the button that starts it (no
    required column is missing) and ReportLab accepts every paragraph
    text of every record and builds the story: the button alone does not
    promise a document. *)
Theorem document_iff_button_and_libraries
    (lib : Libraries) (env : Env) (df : DataFrame) (cfg : Layout) :
  well_formed df ->
  (exists doc,
     returned (generate_sticker_labels_with lib env (default_index df) df cfg)
     = Some (doc, find_columns (columns df)))
  <-> offers_generation df = true
      /\ exists fs,
           Forall2 (fields_of_row (find_columns (columns df)) (columns df))
                   (rows df) fs
           /\ Forall (fun f => record_accepted lib env f = true) fs
           /\ builds lib (document_of env cfg fs) = true.
Proof.
  intros Hwf. unfold offers_generation.
  destruct (missing_required (find_columns (columns df))) as [|m ms] eqn:Hm.
  - destruct (generate_with_outcome lib env df cfg Hwf Hm)
      as (fs & Hfs & Hsome & Hnone & _).
    split.
    + intros (doc & Hret). split; [reflexivity|]. exists fs.
      destruct Hnone as [Hacc Hbuilds]; [congruence|].
      split; [exact Hfs|]. split; [now apply first_rejected_None|exact Hbuilds].
    + intros (_ & fs' & Hfs' & Hacc & Hbuilds).
      rewrite (fields_of_rows_unique _ _ _ _ _ Hfs' Hfs) in Hacc, Hbuilds.
      exists (document_of env cfg fs). apply Hsome; [|exact Hbuilds].
      now apply first_rejected_None.
  - split.
    + intros (doc & Hret).
      rewrite generate_with_missing in Hret by (rewrite Hm; discriminate).
      discriminate.
    + intros [Habs _]. discriminate.
Qed.

Lemma document_iff_button_and_libraries_witness :
  exists doc,
    returned (generate_sticker_labels_with sample_libraries sample_env
                (default_index sample_table) sample_table default_layout)
    = Some (doc, find_columns (columns sample_table)).
Proof.
  apply (document_iff_button_and_libraries sample_libraries sample_env
           sample_table default_layout).
  - compute_done.
  - split; [reflexivity|].
    exists [mkFields "Door" "P-1" "Hinge" "4" "L1_A_03_B" "L1_A_03_B";
            mkFields "Door" "P-2" "nan" "" "" ""].
    split; [|split].
    + repeat constructor; intros log; vm_compute; reflexivity.
    + repeat constructor.
    + vm_compute. reflexivity.
Defined.

Lemma existsb_eqb_In (col : string) (cols : list string) :
  In col cols -> existsb (String.eqb col) cols = true.
Proof.
  intros Hin. apply existsb_exists. exists col.
  split; [exact Hin|apply String.eqb_refl].
Qed.

Lemma found_items_In (cols : list string) (key col : string) :
  In (key, col) (found_items cols) -> find_columns cols !! key = Some col.
Proof.
  unfold found_items. rewrite in_flat_map.
  intros ([k names] & _ & Hin). cbn [fst] in Hin.
  destruct (find_columns cols !! k) as [c|] eqn:E; [|destruct Hin].
  destruct Hin as [[= <- <-]|[]]. exact E.
Qed.

Lemma found_items_complete (cols : list string) (key col : string) :
  find_columns cols !! key = Some col -> In (key, col) (found_items cols).
Proof.
  intros H. pose proof H as Hlook. rewrite find_columns_lookup in Hlook.
  destruct (List.find _ column_mappings) as [[k names]|] eqn:E;
    [|discriminate].
  apply find_some in E as [Hin Hk]. apply String.eqb_eq in Hk.
  cbn [fst] in Hk. subst k.
  unfold found_items. apply in_flat_map. exists (key, names).
  split; [exact Hin|]. cbn [fst]. rewrite H. now left.
Qed.

Lemma preview_row_run (cols : list string) (row : list Cell)
    (items : list (string * string)) :
  length row = length cols ->
  (forall item, In item items -> In (snd item) cols) ->
  exists row_data,
    (forall log, for_each (preview_entry cols row) items log
                 = (inl row_data, log))
    /\ Forall2 (fun item entry =>
                  fst entry = fst item
                  /\ exists v, row_lookup cols row (snd item) = Some v
                               /\ snd entry = py_str v)
               items row_data.
Proof.
  intros Hlen. induction items as [|item items IH]; intros Hin.
  - exists []. split; [reflexivity|constructor].
  - destruct IH as (rest & Hrun & Hrest);
      [intros x Hx; apply Hin; now right|].
    assert (In (snd item) cols) as Hcol by (apply Hin; now left).
    destruct (row_lookup_Some cols row (snd item) Hlen Hcol) as [v Hv].
    exists ((fst item, py_str v) :: rest). split.
    + intros log. cbn [for_each]. unfold bind at 1.
      unfold preview_entry. rewrite (existsb_eqb_In _ _ Hcol).
      unfold bind at 1. unfold row_get. rewrite Hv. unfold ret at 1.
      unfold ret at 1. unfold bind. rewrite Hrun. reflexivity.
    + constructor; [|exact Hrest]. split; [reflexivity|]. eauto.
Qed.

Lemma sample_data_run (cols : list string) (items : list (string * string))
    (some_rows : list (list Cell)) :
  Forall (fun row => length row = length cols) some_rows ->
  (forall item, In item items -> In (snd item) cols) ->
  exists data,
    (forall log,
       for_each (fun row => for_each (preview_entry cols row) items)
                some_rows log = (inl data, log))
    /\ Forall2
         (fun row row_data =>
            Forall2 (fun item entry =>
                       fst entry = fst item
                       /\ exists v, row_lookup cols row (snd item) = Some v
                                    /\ snd entry = py_str v)
                    items row_data)
         some_rows data.
Proof.
  intros Hrows Hin. induction Hrows as [|row rest Hlen Hrest IH].
  - exists []. split; [reflexivity|constructor].
  - destruct IH as (data & Hrun & Hdata).
    destruct (preview_row_run cols row items Hlen Hin) as (rd & Hrd & Hentries).
    exists (rd :: data). split; [|now constructor].
    intros log. cbn [for_each]. unfold bind. rewrite Hrd, Hrun. reflexivity.
Qed.

(** X21: the preview of a well-formed table has one line for each of its
    first three records (fewer when the table is shorter); a line has one
    entry per resolved field, in the order of the schema, holding [str] of
    the record's cell in the column of the field.  Nothing is raised, and
    "N/A" is never filled in. *)
Theorem preview_shows_first_records (df : DataFrame) :
  well_formed df ->
  exists data,
    (forall log, sample_data df log = (inl data, log))
    /\ length data = Nat.min 3 (length (rows df))
    /\ Forall2
         (fun row row_data =>
            Forall2 (fun item entry =>
                       fst entry = fst item
                       /\ exists v,
                            row_lookup (columns df) row (snd item) = Some v
                            /\ snd entry = py_str v)
                    (found_items (columns df)) row_data)
         (firstn 3 (rows df)) data.
Proof.
  intros [_ Hrect].
  destruct (sample_data_run (columns df) (found_items (columns df))
              (firstn 3 (rows df))) as (data & Hrun & Hdata).
  - rewrite Forall_forall in *. intros row Hrow. apply Hrect.
    apply list_elem_of_In. apply list_elem_of_In in Hrow.
    now apply In_firstn in Hrow.
  - intros [key col] Hitem. cbn [snd].
    apply found_items_In in Hitem. now apply find_columns_In in Hitem.
  - exists data. split; [exact Hrun|]. split; [|exact Hdata].
    rewrite <- (Forall2_length _ _ _ Hdata). apply length_firstn.
Qed.

Lemma preview_shows_first_records_witness :
  exists data,
    (forall log, sample_data sample_table log = (inl data, log))
    /\ length data = Nat.min 3 (length (rows sample_table)).
Proof.
  destruct (preview_shows_first_records sample_table)
    as (data & Hrun & Hlen & _).
  - compute_done.
  - exists data. split; [exact Hrun|exact Hlen].
Defined.
